(** * mqtt2influxdb: the message-to-record engine of [Mqtt2InfluxDB]

    A shallow embedding of [src/mqtt2influxdb/mqtt2influxdb.py]: the two
    methods [_on_mqtt_message] and [_get_value_from_str_or_JSONPath], the
    Python values they handle, and the library calls they make.  Library
    calls whose code is not part of the repository (json, jsonpath_ng,
    py_expression_eval, pycron, base64, paho, influxdb, requests, the host
    clock) are fields of a [Host] record; the handler is a function of the
    host, the configuration and the message. *)

From Stdlib Require Import ZArith NArith List String Ascii Bool Lia PrimFloat.
From Stdlib Require Strings.Byte.
Import ListNotations.
Set Warnings "-register-all".
Open Scope string_scope.
Open Scope Z_scope.

(** ** Python values *)

(** The values that flow through the handler: what [json.loads] returns,
    plus [bytes] (the base64 side channel stores raw bytes in the message
    context).  A [str] is held as its UTF-8 encoding; a [dict] keeps its
    insertion order, as Python's does. *)
Inductive pyval : Type :=
| PNone
| PBool (b : bool)
| PInt (z : Z)
| PFloat (f : float)
| PStr (s : string)
| PBytes (bs : list Byte.byte)
| PList (xs : list pyval)
| PDict (kvs : list (string * pyval)).

Definition pydict : Type := list (string * pyval).

(** Exception classes the handler can meet.  [UnicodeDecodeError] is a
    subclass of [ValueError]; [LibraryError] stands for any other subclass of
    [Exception] a collaborator raises. *)
Inductive exn : Type :=
| ValueError
| UnicodeDecodeError
| TypeError
| KeyError
| AttributeError
| OverflowError
| LibraryError (name : string).

(** [except ValueError] *)
Definition is_ValueError (e : exn) : bool :=
  match e with
  | ValueError | UnicodeDecodeError => true
  | _ => false
  end.

(** A call returns a value or raises. *)
Inductive outcome (A : Type) : Type :=
| Ok (a : A)
| Raise (e : exn).
Arguments Ok {A} a.
Arguments Raise {A} e.

Definition bind {A B : Type} (c : outcome A) (k : A -> outcome B) : outcome B :=
  match c with
  | Ok a => k a
  | Raise e => Raise e
  end.

Notation "x <- c ;; k" := (bind c (fun x => k))
  (at level 61, c at next level, right associativity).

(** ** Builtin operations of the language *)

(** [bool(v)], the test behind [if v:] and [not v]. *)
Definition py_truthy (v : pyval) : bool :=
  match v with
  | PNone => false
  | PBool b => b
  | PInt z => negb (z =? 0)
  | PFloat f => negb (PrimFloat.eqb f 0%float)
  | PStr s => negb (String.eqb s "")
  | PBytes bs => match bs with [] => false | _ => true end
  | PList xs => match xs with [] => false | _ => true end
  | PDict kvs => match kvs with [] => false | _ => true end
  end.

(** [v is None] *)
Definition is_None (v : pyval) : bool :=
  match v with PNone => true | _ => false end.

(** [v == s] for a [str] literal [s]. *)
Definition eq_str (v : pyval) (s : string) : bool :=
  match v with PStr t => String.eqb t s | _ => false end.

(** [int(v)] on a value known to be a [bool]. *)
Definition int_of_bool (b : bool) : pyval := PInt (if b then 1 else 0).

(** [d[k]], [None] standing for [KeyError]. *)
Fixpoint dict_get (k : string) (d : pydict) : option pyval :=
  match d with
  | [] => None
  | (k', v) :: rest => if String.eqb k k' then Some v else dict_get k rest
  end.

(** [d[k] = v]: an existing key keeps its place and takes the new value, a
    new key goes last.  [d.update({k: v})] is the same assignment. *)
Fixpoint dict_set (k : string) (v : pyval) (d : pydict) : pydict :=
  match d with
  | [] => [(k, v)]
  | (k', v') :: rest =>
      if String.eqb k k' then (k', v) :: rest else (k', v') :: dict_set k v rest
  end.

(** [v.keys()]: only a dict has the method. *)
Definition py_keys (v : pyval) : outcome (list string) :=
  match v with
  | PDict kvs => Ok (map fst kvs)
  | _ => Raise AttributeError
  end.

(** [v[k]] for a [str] key [k]. *)
Definition py_getitem (v : pyval) (k : string) : outcome pyval :=
  match v with
  | PDict kvs => match dict_get k kvs with Some x => Ok x | None => Raise KeyError end
  | _ => Raise TypeError
  end.

(** [s.split(sep)] for a one-character separator. *)
Fixpoint split_on (sep : ascii) (s : string) : list string :=
  match s with
  | EmptyString => [EmptyString]
  | String c rest =>
      if Ascii.eqb c sep then EmptyString :: split_on sep rest
      else match split_on sep rest with
           | [] => [String c EmptyString]
           | w :: ws => String c w :: ws
           end
  end.

(** [s.startswith(p)] *)
Definition startswith (p s : string) : bool := String.prefix p s.

(** *** [bytes.decode('utf-8')] *)

Definition in_range (lo hi b : N) : bool := (N.leb lo b) && (N.leb b hi).

(** Well-formed UTF-8 (the strict decoder: no overlong forms, no surrogates,
    nothing above U+10FFFF). *)
Fixpoint utf8_ok (bs : list N) : bool :=
  match bs with
  | [] => true
  | b0 :: r0 =>
      if N.ltb b0 128 then utf8_ok r0
      else if in_range 194 223 b0 then
        match r0 with
        | b1 :: r1 => in_range 128 191 b1 && utf8_ok r1
        | _ => false
        end
      else if in_range 224 239 b0 then
        match r0 with
        | b1 :: b2 :: r2 =>
            in_range (if N.eqb b0 224 then 160 else 128)
                     (if N.eqb b0 237 then 159 else 191) b1
            && in_range 128 191 b2 && utf8_ok r2
        | _ => false
        end
      else if in_range 240 244 b0 then
        match r0 with
        | b1 :: b2 :: b3 :: r3 =>
            in_range (if N.eqb b0 240 then 144 else 128)
                     (if N.eqb b0 244 then 143 else 191) b1
            && in_range 128 191 b2 && in_range 128 191 b3 && utf8_ok r3
        | _ => false
        end
      else false
  end.

Definition decode_utf8 (bs : list Byte.byte) : outcome string :=
  if utf8_ok (map Byte.to_N bs) then Ok (string_of_list_byte bs)
  else Raise UnicodeDecodeError.

(** *** [bytes.hex()] *)

Definition hex_digit (n : N) : ascii :=
  ascii_of_N (if N.ltb n 10 then 48 + n else 87 + n)%N.

Definition hex_of_byte (b : Byte.byte) : string :=
  let n := Byte.to_N b in
  String (hex_digit (n / 16)) (String (hex_digit (n mod 16)) EmptyString).

Definition bytes_hex (bs : list Byte.byte) : string :=
  String.concat "" (map hex_of_byte bs).

(** *** [datetime] and [strftime('%Y-%m-%dT%H:%M:%SZ')] *)

(** A naive [datetime], to the second. *)
Record datetime : Type := {
  year : Z; month : Z; day : Z; hour : Z; minute : Z; second : Z
}.

(** The proleptic Gregorian date of a day number counted from 1970-01-01. *)
Definition civil_of_days (days : Z) : Z * Z * Z :=
  let z := days + 719468 in
  let era := z / 146097 in
  let doe := z mod 146097 in
  let yoe := (doe - doe / 1460 + doe / 36524 - doe / 146096) / 365 in
  let doy := doe - (365 * yoe + yoe / 4 - yoe / 100) in
  let mp := (5 * doy + 2) / 153 in
  let d := doy - (153 * mp + 2) / 5 + 1 in
  let m := if mp <? 10 then mp + 3 else mp - 9 in
  let y := yoe + era * 400 + (if m <=? 2 then 1 else 0) in
  (y, m, d).

(** The naive datetime that is [secs] seconds after 1970-01-01T00:00:00. *)
Definition datetime_of_seconds (secs : Z) : datetime :=
  let '(y, m, d) := civil_of_days (secs / 86400) in
  let s := secs mod 86400 in
  {| year := y; month := m; day := d;
     hour := s / 3600; minute := s / 60 mod 60; second := s mod 60 |}.

Definition digit (d : Z) : ascii := ascii_of_N (Z.to_N (48 + d mod 10)).

Definition pad2 (n : Z) : string :=
  String (digit (n / 10)) (String (digit n) EmptyString).

Definition pad4 (n : Z) : string :=
  String (digit (n / 1000)) (String (digit (n / 100)) (pad2 n)).

(** The year as [%Y] writes it on the C library the handler runs on: its
    decimal digits, without padding. *)
Definition year_text (y : Z) : string :=
  if y <? 10 then String (digit y) EmptyString
  else if y <? 100 then pad2 y
  else if y <? 1000 then String (digit (y / 100)) (pad2 y)
  else pad4 y.

Definition render (year_as : Z -> string) (dt : datetime) : string :=
  year_as (year dt) ++ "-" ++ pad2 (month dt) ++ "-" ++ pad2 (day dt) ++ "T"
  ++ pad2 (hour dt) ++ ":" ++ pad2 (minute dt) ++ ":" ++ pad2 (second dt) ++ "Z".

(** [dt.strftime('%Y-%m-%dT%H:%M:%SZ')]: the letter Z is part of the format,
    whatever zone [dt] was taken in. *)
Definition strftime (dt : datetime) : string := render year_text dt.

(** The RFC 3339 rendering, in UTC, of an instant given in epoch seconds:
    a year of four digits, and Z for the zone. *)
Definition rfc3339_utc (epoch : Z) : string :=
  render pad4 (datetime_of_seconds epoch).

(** ** Configuration (the part the handler reads) *)

(** A parsed [jsonpath_ng.JSONPath] object: the classes [Root], [This],
    [Fields], [Index] and [Child], and any other path by its text. *)
Inductive jsonpath : Type :=
| Root
| This
| Fields (name : string)
| Index (i : Z)
| Child (l r : jsonpath)
| OtherPath (text : string).

Inductive binop : Type := Add | Sub | Mul.

(** A parsed [py_expression_eval.Expression] object: numbers, variables,
    sums, differences and products, and any other expression by its text. *)
Inductive expr : Type :=
| ENum (v : pyval)
| EVar (name : string)
| EBin (op : binop) (a b : expr)
| OtherExpr (text : string).

(** What [_get_value_from_str_or_JSONPath] tells apart with [isinstance]:
    a [str], a [JSONPath], an [Expression]; for an object of any other class
    the method falls off its end. *)
Inductive value_ref : Type :=
| RStr (s : string)
| RPath (p : jsonpath)
| RExpr (e : expr)
| ROther.

(** An entry of [point['fields']]: a dict with the keys 'value' and 'type',
    or a bare value reference. *)
Inductive field_spec : Type :=
| FTyped (value : value_ref) (type : string)
| FBare (v : value_ref).

(** [point['fields']]: one [JSONPath] for the whole field set, or a dict. *)
Inductive fields_cfg : Type :=
| FieldsPath (p : jsonpath)
| FieldsMap (fs : list (string * field_spec)).

(** One entry of [config['points']]; an optional key is an [option]. *)
Record point : Type := {
  pt_topic : string;
  pt_measurement : value_ref;
  pt_schedule : option string;
  pt_fields : option fields_cfg;
  pt_tags : option (list (string * value_ref));
  pt_database : option string;
  pt_httpcontent : option (list (string * value_ref))
}.

Record http_config : Type := {
  action : string; destination : string; username : string; password : string
}.

Record config : Type := {
  points : list point;
  base64decode : option (value_ref * string);   (* source, target *)
  http : option http_config
}.

(** The message paho hands to the callback. *)
Record message : Type := {
  m_topic : string;
  m_payload : list Byte.byte;
  m_timestamp : pyval;
  m_qos : Z
}.

(** The dict passed to [write_points]. ['fields'] is a dict when it was
    filled key by key, and whatever the path resolved to when
    [point['fields']] is a single [JSONPath]. *)
Record record : Type := {
  measurement : pyval;
  time : string;
  tags : pydict;
  fields : pyval
}.

Record http_request : Type := {
  url : string; data : pydict; auth : string * string
}.

(** The calls the handler makes on its sinks, in the order it makes them. *)
Inductive effect : Type :=
| Write (r : record) (db : option string)
| HttpCall (verb : string) (req : http_request).

(** ** The collaborators *)

(** An attribute found by [getattr]: something that can be called, or a
    plain value (calling it raises [TypeError]). *)
Inductive attr : Type :=
| Callable (f : pyval -> outcome pyval)
| Plain (v : pyval).

Definition attr_truthy (a : option attr) : bool :=
  match a with
  | None => false
  | Some (Callable _) => true
  | Some (Plain v) => py_truthy v
  end.

Definition call (a : option attr) (v : pyval) : outcome pyval :=
  match a with
  | Some (Callable f) => f v
  | _ => Raise TypeError
  end.

(** Everything the handler calls that is not in the source file.  The clock
    and the cron oracle are read once per rule; their argument is the rule's
    position in [config['points']]. *)
Record Host : Type := {
  (** [paho.mqtt.client.topic_matches_sub(sub, topic)] *)
  topic_matches_sub : string -> string -> bool;
  (** [json.loads(text)]; [None] when it raises *)
  json_loads : string -> option pyval;
  (** [pycron.is_now(schedule)] *)
  is_now : nat -> string -> outcome bool;
  (** [datetime.utcnow()], as whole seconds since the epoch *)
  utcnow : nat -> Z;
  (** the offset of the host's local time from UTC at an instant, in seconds *)
  utcoffset : Z -> Z;
  (** the whole seconds [datetime.fromtimestamp] takes from a float *)
  float_seconds : float -> outcome Z;
  (** [path.find(datum)], as the list of the matches' values *)
  find : jsonpath -> pyval -> outcome (list pyval);
  (** [expr.variable_to_jsonpath(var)] (module [.expr]) *)
  variable_to_jsonpath : string -> string;
  (** [config.json_path(text)] (module [.config]) *)
  json_path : string -> outcome jsonpath;
  (** [expression.variables()] and [expression.evaluate(vars)] *)
  variables : expr -> list string;
  evaluate : expr -> pydict -> outcome pyval;
  (** [base64.b64decode(data)] *)
  b64decode : pyval -> outcome (list Byte.byte);
  (** [getattr(builtins, name, None)] *)
  builtins_getattr : string -> option attr;
  (** [influxdb.write_points([record], database=db)] *)
  write_points : record -> option string -> outcome unit;
  (** [getattr(requests, name, None)], when it is truthy, applied to the
      request *)
  requests_getattr : string -> option (http_request -> outcome unit)
}.

(** The dict [msg] of lines 122-127 for a message and its parsed payload. *)
Definition context_of (m : message) (payload : pyval) : pydict :=
  [("topic", PList (map PStr (split_on "/" (m_topic m))));
   ("payload", payload);
   ("timestamp", m_timestamp m);
   ("qos", PInt (m_qos m))].

(** ** The engine *)

Section Engine.

Variable h : Host.
Variable cfg : config.

(** *** [_get_value_from_str_or_JSONPath] *)

(** The loop over [param.variables()]: a variable that starts with JSON__
    and whose path finds something is bound to the first match; every other
    variable is only logged. *)
Fixpoint bind_variables (vars : list string) (msg : pydict) (acc : pydict)
  : outcome pydict :=
  match vars with
  | [] => Ok acc
  | var :: rest =>
      if startswith "JSON__" var then
        let json_field := variable_to_jsonpath h var in
        p <- json_path h json_field ;;
        tmp <- find h p (PDict msg) ;;
        match tmp with
        | m :: _ => bind_variables rest msg (dict_set var m acc)
        | [] => bind_variables rest msg acc
        end
      else bind_variables rest msg acc
  end.

Definition _get_value_from_str_or_JSONPath (param : value_ref) (msg : pydict)
  : outcome pyval :=
  match param with
  | RStr s => Ok (PStr s)
  | RPath p =>
      tmp <- find h p (PDict msg) ;;
      match tmp with
      | m :: _ => Ok m
      | [] => Ok PNone
      end
  | RExpr e =>
      vars <- bind_variables (variables h e) msg [] ;;
      evaluate h e vars
  | ROther => Ok PNone
  end.

(** *** The message context (lines 109-127) *)

(** The dict [msg] and the local [payload], built from the message. *)
Definition build_msg (m : message) : outcome (pydict * pyval) :=
  text <- decode_utf8 (m_payload m) ;;
  let text := if String.eqb text "" then "null" else text in
  let payload :=
    match json_loads h text with
    | Some v => v
    | None => PStr text            (* except Exception: payload = str(payload) *)
    end in
  Ok (context_of m payload, payload).

(** [if not msg: ...]: the context is built at the first rule that matches
    and kept for the later ones. *)
Definition ensure_msg (ctx : option (pydict * pyval)) (m : message)
  : outcome (pydict * pyval) :=
  match ctx with
  | Some (msg, payload) =>
      if py_truthy (PDict msg) then Ok (msg, payload) else build_msg m
  | None => build_msg m
  end.

(** *** The schedule gate (lines 128-132): [true] when the rule is skipped *)
Definition skipped_by_schedule (i : nat) (p : point) : outcome bool :=
  match pt_schedule p with
  | None => Ok false
  | Some s => now <- is_now h i s ;; Ok (negb now)
  end.

(** *** The record's time (lines 139-147) *)

(** [datetime.fromtimestamp(v)]: the host's local time at [v] seconds.  A
    value that is no number is a [TypeError].  The local year has to be one
    of 1 to 9999, and so has the local year one day earlier, which the
    function looks at to tell a repeated hour: otherwise it raises a
    [ValueError] (an [OverflowError] or an [OSError] for an instant the
    platform cannot convert); the one handler around the call catches them
    all. *)
Definition fromtimestamp (v : pyval) : outcome datetime :=
  secs <- match v with
          | PInt z => Ok z
          | PBool b => Ok (if b then 1 else 0)
          | PFloat f => float_seconds h f
          | _ => Raise TypeError
          end ;;
  let dt := datetime_of_seconds (secs + utcoffset h secs) in
  let probe :=
    datetime_of_seconds (secs - 86400 + utcoffset h (secs - 86400)) in
  if (1 <=? year dt) && (year dt <=? 9999) && (1 <=? year probe)
  then Ok dt else Raise ValueError.

(** The body of the [try]: the time taken from the payload, when it has the
    key 'timestamp'. *)
Definition embedded_time (payload : pyval) : outcome (option string) :=
  keys <- py_keys payload ;;
  if existsb (String.eqb "timestamp") keys then
    ts <- py_getitem payload "timestamp" ;;
    dt <- fromtimestamp ts ;;
    Ok (Some (strftime dt))
  else Ok None.

(** [datetime.utcnow().strftime('%Y-%m-%dT%H:%M:%SZ')] *)
Definition utcnow_text (i : nat) : string :=
  strftime (datetime_of_seconds (utcnow h i)).

Definition record_time (i : nat) (payload : pyval) : string :=
  let timestamp := utcnow_text i in
  match embedded_time payload with
  | Ok (Some t) => t
  | Ok None => timestamp
  | Raise _ => timestamp           (* except Exception *)
  end.

(** *** The base64 side channel (lines 154-159) *)
Definition base64_merge (msg : pydict) : outcome pydict :=
  match base64decode cfg with
  | None => Ok msg
  | Some (source, target) =>
      data <- _get_value_from_str_or_JSONPath source msg ;;
      dataDecoded <- b64decode h data ;;
      let msg :=
        dict_set "base64decoded"
          (PDict [(target, PDict [("raw", PBytes dataDecoded)])]) msg in
      let dataDecoded := bytes_hex dataDecoded in
      Ok (dict_set "base64decoded"
            (PDict [(target, PDict [("hex", PStr dataDecoded)])]) msg)
  end.

(** *** Fields (lines 161-193) *)

(** Lines 170-178 on a value that is not [None]: the conversion named
    [type], looked up among the builtins. *)
Definition convert (type : string) (val : pyval) : outcome pyval :=
  let convFunc := builtins_getattr h type in
  if attr_truthy convFunc then
    match call convFunc val with
    | Ok v => Ok v
    | Raise e => if is_ValueError e then Ok PNone else Raise e
    end
  else Ok val.

(** [point['fields']['type'] == 'booltoint'], with ['type' in point['fields']] *)
Definition type_is_booltoint (fs : list (string * field_spec)) : bool :=
  match List.find (fun kv => String.eqb "type" (fst kv)) fs with
  | Some (_, FBare (RStr s)) => String.eqb s "booltoint"
  | _ => false
  end.

(** Lines 180-187: the legacy handling of the keys 'value' and 'type'. *)
Definition legacy_booltoint (fs : list (string * field_spec)) (key : string)
  (val : pyval) : pyval :=
  if String.eqb key "value" then
    match val with
    | PBool b => if type_is_booltoint fs then int_of_bool b else val
    | _ => val
    end
  else if String.eqb key "type" then
    if eq_str val "booltoint" then PStr "int" else val
  else val.

(** One pass of the loop body up to line 187: the value for [key], [None]
    when the typed branch runs into its [continue]. *)
Definition field_value (fs : list (string * field_spec)) (msg : pydict)
  (key : string) (spec : field_spec) : outcome pyval :=
  match spec with
  | FTyped value type =>
      val <- _get_value_from_str_or_JSONPath value msg ;;
      if is_None val then Ok PNone          (* continue *)
      else convert type val
  | FBare v =>
      val <- _get_value_from_str_or_JSONPath v msg ;;
      Ok (legacy_booltoint fs key val)
  end.

(** The loop [for key in point['fields']] over what is left of the dict;
    [fs] is the whole dict, [acc] is [record['fields']] so far. *)
Fixpoint fields_loop (fs todo : list (string * field_spec)) (msg : pydict)
  (acc : pydict) : outcome pydict :=
  match todo with
  | [] => Ok acc
  | (key, spec) :: rest =>
      val <- field_value fs msg key spec ;;
      if is_None val then fields_loop fs rest msg acc       (* continue *)
      else fields_loop fs rest msg (dict_set key val acc)
  end.

Definition record_fields (p : point) (msg : pydict) : outcome pyval :=
  match pt_fields p with
  | None => Ok (PDict [])
  | Some (FieldsPath path) => _get_value_from_str_or_JSONPath (RPath path) msg
  | Some (FieldsMap fs) => d <- fields_loop fs fs msg [] ;; Ok (PDict d)
  end.

(** *** Tags (lines 199-208) and the HTTP content (lines 216-220) *)
Fixpoint refs_loop (todo : list (string * value_ref)) (msg : pydict)
  (acc : pydict) : outcome pydict :=
  match todo with
  | [] => Ok acc
  | (key, ref) :: rest =>
      val <- _get_value_from_str_or_JSONPath ref msg ;;
      if is_None val then refs_loop rest msg acc
      else refs_loop rest msg (dict_set key val acc)
  end.

Definition record_tags (p : point) (msg : pydict) : outcome pydict :=
  match pt_tags p with
  | None => Ok []
  | Some ts => refs_loop ts msg []
  end.

(** *** Building one rule's record (lines 134-208) *)

(** The rule's record with the context as the side channel left it, or
    the handler's [return], or an exception nothing catches. *)
Inductive built : Type :=
| Emit (msg : pydict) (r : record)
| Abort
| Fail (e : exn).

Definition build_record (i : nat) (p : point) (msg : pydict) (payload : pyval)
  : built :=
  match _get_value_from_str_or_JSONPath (pt_measurement p) msg with
  | Raise e => Fail e
  | Ok m =>
      if is_None m then Abort       (* 'unknown measurement': return *)
      else
        let timestamp := record_time i payload in
        match base64_merge msg with
        | Raise e => Fail e
        | Ok msg =>
            match record_fields p msg with
            | Raise e => Fail e
            | Ok fs =>
                if negb (py_truthy fs) then Abort   (* 'empty fields': return *)
                else
                  match record_tags p msg with
                  | Raise e => Fail e
                  | Ok ts =>
                      Emit msg {| measurement := m; time := timestamp;
                                  tags := ts; fields := fs |}
                  end
            end
        end
  end.

(** *** Handing the record over (lines 212-226) *)
Definition submit (p : point) (msg : pydict) (r : record)
  : list effect * outcome unit :=
  let w := Write r (pt_database p) in
  match write_points h r (pt_database p) with
  | Raise e => ([w], Raise e)
  | Ok _ =>
      match http cfg with
      | None => ([w], Ok tt)
      | Some hc =>
          match pt_httpcontent p with
          | None => ([w], Raise KeyError)
          | Some content =>
              match refs_loop content msg [] with
              | Raise e => ([w], Raise e)
              | Ok http_record =>
                  match requests_getattr h (action hc) with
                  | Some act =>
                      let req := {| url := destination hc; data := http_record;
                                    auth := (username hc, password hc) |} in
                      ([w; HttpCall (action hc) req], act req)
                  | None => ([w], Ok tt)      (* 'Invalid HTTP method key!' *)
                  end
              end
          end
      end
  end.

(** *** The loop body and the loop of [_on_mqtt_message] *)

(** How one pass through the loop body ends: on to the next rule with the
    context as it now is, the handler's [return], or an exception. *)
Inductive flow : Type :=
| Continue (ctx : option (pydict * pyval))
| Return
| Raised (e : exn).

Definition rule_step (i : nat) (p : point) (ctx : option (pydict * pyval))
  (m : message) : list effect * flow :=
  if topic_matches_sub h (pt_topic p) (m_topic m) then
    match ensure_msg ctx m with
    | Raise e => ([], Raised e)
    | Ok (msg, payload) =>
        match skipped_by_schedule i p with
        | Raise e => ([], Raised e)
        | Ok true => ([], Continue (Some (msg, payload)))      (* continue *)
        | Ok false =>
            match build_record i p msg payload with
            | Fail e => ([], Raised e)
            | Abort => ([], Return)
            | Emit msg r =>
                let (es, res) := submit p msg r in
                match res with
                | Ok _ => (es, Continue (Some (msg, payload)))
                | Raise e => (es, Raised e)
                end
            end
        end
    end
  else ([], Continue ctx).

(** How the handler ends. *)
Inductive status : Type :=
| Returned
| Uncaught (e : exn).

Fixpoint dispatch (i : nat) (ps : list point) (ctx : option (pydict * pyval))
  (m : message) : list effect * status :=
  match ps with
  | [] => ([], Returned)
  | p :: rest =>
      let (es, f) := rule_step i p ctx m in
      match f with
      | Continue ctx =>
          let (es', s) := dispatch (S i) rest ctx m in ((es ++ es')%list, s)
      | Return => (es, Returned)
      | Raised e => (es, Uncaught e)
      end
  end.

Definition _on_mqtt_message (m : message) : list effect * status :=
  dispatch 0 (points cfg) None m.

End Engine.

(** ** A reference host

    One host, used to run the handler on concrete messages.  It gives the
    library calls their documented results on the inputs used in this file;
    where a library's behaviour is not modelled the call raises a
    [LibraryError] that says so. *)

Definition not_modelled {A : Type} (what : string) : outcome A :=
  Raise (LibraryError what).

(** MQTT matching of a subscription against a topic, level by level. *)
Fixpoint levels_match (sub topic : list string) : bool :=
  match sub, topic with
  | [], [] => true
  | s :: sub', _ =>
      if String.eqb s "#" then true
      else match topic with
           | t :: topic' =>
               (String.eqb s "+" || String.eqb s t) && levels_match sub' topic'
           | [] => false
           end
  | [], _ :: _ => false
  end.

Definition ref_topic_matches_sub (sub topic : string) : bool :=
  levels_match (split_on "/" sub) (split_on "/" topic).

(** A JSON string literal: [s] between double quotes. *)
Definition quoted (s : string) : string :=
  let dq := String (ascii_of_nat 34) EmptyString in dq ++ s ++ dq.

(** The sample payload texts. *)
Definition text_timestamp_value : string :=
  "{" ++ quoted "timestamp" ++ ": 1700000000, " ++ quoted "value" ++ ": 5}".
Definition text_value (v : string) : string :=
  "{" ++ quoted "value" ++ ": " ++ v ++ "}".
Definition text_data_value : string :=
  "{" ++ quoted "data" ++ ": " ++ quoted "aGk=" ++ ", " ++ quoted "value" ++ ": 5}".

(** [json.loads] on the sample texts; any other text is taken as one that
    does not parse (true of the sample text hello). *)
Definition ref_json_loads (text : string) : option pyval :=
  if String.eqb text "null" then Some PNone
  else if String.eqb text text_timestamp_value then
    Some (PDict [("timestamp", PInt 1700000000); ("value", PInt 5)])
  else if String.eqb text (text_value "10") then
    Some (PDict [("value", PInt 10)])
  else if String.eqb text (text_value "-5") then
    Some (PDict [("value", PInt (-5))])
  else if String.eqb text (text_value "true") then
    Some (PDict [("value", PBool true)])
  else if String.eqb text (text_value "false") then
    Some (PDict [("value", PBool false)])
  else if String.eqb text text_data_value then
    Some (PDict [("data", PStr "aGk="); ("value", PInt 5)])
  else if String.eqb text "[1, 2]" then
    Some (PList [PInt 1; PInt 2])
  else None.

(** [pycron.is_now]: the schedule of all stars is always now; the sample
    schedule for midnight on the first of January is not, at the reference
    clock. *)
Definition ref_is_now (_ : nat) (schedule : string) : outcome bool :=
  if String.eqb schedule "* * * * *" then Ok true
  else if String.eqb schedule "0 0 1 1 *" then Ok false
  else not_modelled "pycron".

(** The reference clock: 2023-11-14T22:23:20 UTC, at every reading. *)
Definition ref_utcnow (_ : nat) : Z := 1700000600.

(** jsonpath_ng's [find] on the path classes of [jsonpath].  [Fields] reads
    a key of a dict and matches nothing elsewhere; [Index] is modelled on
    lists. *)
Fixpoint ref_find_from (root : pyval) (p : jsonpath) (datum : pyval)
  : outcome (list pyval) :=
  match p with
  | Root => Ok [root]
  | This => Ok [datum]
  | Fields name =>
      match datum with
      | PDict kvs =>
          match dict_get name kvs with Some v => Ok [v] | None => Ok [] end
      | _ => Ok []
      end
  | Index i =>
      match datum with
      | PList xs =>
          if (0 <=? i) && (i <? Z.of_nat (List.length xs)) then
            match nth_error xs (Z.to_nat i) with
            | Some v => Ok [v]
            | None => Ok []
            end
          else if 0 <=? i then Ok []
          else not_modelled "negative index"
      | _ => if py_truthy datum then not_modelled "index into a non-list" else Ok []
      end
  | Child l r =>
      ls <- ref_find_from root l datum ;;
      fold_right (fun d acc => here <- ref_find_from root r d ;;
                               more <- acc ;; Ok (here ++ more)%list)
                 (Ok []) ls
  | OtherPath _ => not_modelled "path class"
  end.

Definition ref_find (p : jsonpath) (datum : pyval) : outcome (list pyval) :=
  ref_find_from datum p datum.

(** Every double underscore of [s] turned into a dot. *)
Fixpoint dunder_to_dot (s : string) : string :=
  match s with
  | EmptyString => EmptyString
  | String c rest =>
      match rest with
      | String c' rest' =>
          if Ascii.eqb c "_" && Ascii.eqb c' "_"
          then String "." (dunder_to_dot rest')
          else String c (dunder_to_dot rest)
      | EmptyString => s
      end
  end.

(** Modelled from the spec: [variable_to_jsonpath] of the module [.expr],
    which is not among the sources.  The spec has the placeholder
    JSON__payload__value stand for the value at payload.value of the message
    context: the prefix JSON stands for the root, each double underscore for
    a dot. *)
Definition ref_variable_to_jsonpath (var : string) : string :=
  "$" ++ dunder_to_dot (substring 4 (String.length var - 4)%nat var).

(** Modelled from the spec: [json_path] of the module [.config], which is
    not among the sources: the parser of path expressions, here for the
    dotted paths from the root that [ref_variable_to_jsonpath] produces. *)
Definition ref_json_path (text : string) : outcome jsonpath :=
  match split_on "." text with
  | root :: names =>
      if String.eqb root "$" && forallb (fun n => negb (String.eqb n "")) names
      then Ok (fold_left (fun p n => Child p (Fields n)) names Root)
      else not_modelled "path syntax"
  | [] => not_modelled "path syntax"
  end.

(** py_expression_eval: the variables in order of appearance, each once. *)
Fixpoint expr_vars (e : expr) : list string :=
  match e with
  | ENum _ => []
  | EVar x => [x]
  | EBin _ a b => expr_vars a ++ expr_vars b
  | OtherExpr _ => []
  end.

Definition ref_variables (e : expr) : list string :=
  nodup string_dec (expr_vars e).

Definition as_int (v : pyval) : option Z :=
  match v with
  | PInt z => Some z
  | PBool b => Some (if b then 1 else 0)
  | _ => None
  end.

Definition ref_binop (op : binop) (a b : pyval) : outcome pyval :=
  match as_int a, as_int b with
  | Some x, Some y =>
      Ok (PInt match op with Add => x + y | Sub => x - y | Mul => x * y end)
  | _, _ => not_modelled "arithmetic on values that are not integers"
  end.

Fixpoint ref_evaluate (e : expr) (vars : pydict) : outcome pyval :=
  match e with
  | ENum v => Ok v
  | EVar x =>
      match dict_get x vars with
      | Some v => Ok v
      | None => Raise (LibraryError "undefined variable")
      end
  | EBin op a b =>
      x <- ref_evaluate a vars ;;
      y <- ref_evaluate b vars ;;
      ref_binop op x y
  | OtherExpr _ => not_modelled "expression"
  end.

(** [base64.b64decode] on the sample text; [None] is a [TypeError]. *)
Definition ref_b64decode (data : pyval) : outcome (list Byte.byte) :=
  match data with
  | PStr s => if String.eqb s "aGk=" then Ok [Byte.x68; Byte.x69]
              else not_modelled "base64"
  | PNone => Raise TypeError
  | _ => not_modelled "base64"
  end.

(** The builtins the reference host knows: [abs], [bool] and [int]. *)
Definition ref_abs (v : pyval) : outcome pyval :=
  match v with
  | PInt z => Ok (PInt (Z.abs z))
  | PBool b => Ok (PInt (if b then 1 else 0))
  | PFloat f => Ok (PFloat (PrimFloat.abs f))
  | _ => Raise TypeError
  end.

Definition ref_int (v : pyval) : outcome pyval :=
  match v with
  | PInt z => Ok (PInt z)
  | PBool b => Ok (int_of_bool b)
  | PNone | PList _ | PDict _ => Raise TypeError
  | _ => not_modelled "int() of a float, a str or bytes"
  end.

Definition ref_builtins_getattr (name : string) : option attr :=
  if String.eqb name "abs" then Some (Callable ref_abs)
  else if String.eqb name "bool" then Some (Callable (fun v => Ok (PBool (py_truthy v))))
  else if String.eqb name "int" then Some (Callable ref_int)
  else None.

Definition ref_requests_getattr (name : string)
  : option (http_request -> outcome unit) :=
  if String.eqb name "post" then Some (fun _ => Ok tt) else None.

(** The reference host, on a machine whose local time is [offset] seconds
    ahead of UTC. *)
Definition host_at (offset : Z) : Host := {|
  topic_matches_sub := ref_topic_matches_sub;
  json_loads := ref_json_loads;
  is_now := ref_is_now;
  utcnow := ref_utcnow;
  utcoffset := fun _ => offset;
  float_seconds := fun _ => not_modelled "float timestamp";
  find := ref_find;
  variable_to_jsonpath := ref_variable_to_jsonpath;
  json_path := ref_json_path;
  variables := ref_variables;
  evaluate := ref_evaluate;
  b64decode := ref_b64decode;
  builtins_getattr := ref_builtins_getattr;
  write_points := fun _ _ => Ok tt;
  requests_getattr := ref_requests_getattr
|}.

(** A host on UTC, and one an hour ahead of it (Central European Time). *)
Definition utc_host : Host := host_at 0.
Definition cet_host : Host := host_at 3600.

(** ** Sample configurations and messages *)

Definition payload_path (name : string) : jsonpath :=
  Child (Child Root (Fields "payload")) (Fields name).

Definition message_on (topic : string) (payload : list Byte.byte) : message :=
  {| m_topic := topic; m_payload := payload; m_timestamp := PFloat 0%float;
     m_qos := 0 |}.

Definition message_of (text : string) : message :=
  message_on "sensors/a/temp" (list_byte_of_string text).

(** A rule that reads its one field from payload.value. *)
Definition rule (topic : string) (m : value_ref) : point :=
  {| pt_topic := topic; pt_measurement := m; pt_schedule := None;
     pt_fields := Some (FieldsMap [("value", FBare (RPath (payload_path "value")))]);
     pt_tags := None; pt_database := None; pt_httpcontent := None |}.

(** Rule A takes its measurement from payload.name, rule B has it fixed. *)
Definition rule_A : point := rule "sensors/+/temp" (RPath (payload_path "name")).
Definition rule_B : point := rule "sensors/#" (RStr "temperature").

Definition with_fields (p : point) (fs : list (string * field_spec)) : point :=
  {| pt_topic := pt_topic p; pt_measurement := pt_measurement p;
     pt_schedule := pt_schedule p; pt_fields := Some (FieldsMap fs);
     pt_tags := pt_tags p; pt_database := pt_database p;
     pt_httpcontent := pt_httpcontent p |}.

Definition with_schedule (p : point) (s : string) : point :=
  {| pt_topic := pt_topic p; pt_measurement := pt_measurement p;
     pt_schedule := Some s; pt_fields := pt_fields p;
     pt_tags := pt_tags p; pt_database := pt_database p;
     pt_httpcontent := pt_httpcontent p |}.

Definition config_of (ps : list point) : config :=
  {| points := ps; base64decode := None; http := None |}.

(** The configuration with the base64 side channel: decode payload.data,
    expose it under the key data. *)
Definition config_base64 (ps : list point) : config :=
  {| points := ps;
     base64decode := Some (RPath (payload_path "data"), "data");
     http := None |}.

(** The record rule B writes for the sample payload with value 5. *)
Definition record_B (time : string) : record :=
  {| measurement := PStr "temperature"; time := time; tags := [];
     fields := PDict [("value", PInt 5)] |}.

(** Rule E has its measurement and looks for a field the samples lack. *)
Definition rule_E : point :=
  with_fields (rule "sensors/+/temp" (RStr "humidity"))
    [("value", FBare (RPath (payload_path "humidity")))].

(** Rule C reads both forms of the decoded side channel. *)
Definition decoded_path (form : string) : jsonpath :=
  Child (Child (Child Root (Fields "base64decoded")) (Fields "data")) (Fields form).

Definition rule_C : point :=
  with_fields rule_B
    [("raw", FBare (RPath (decoded_path "raw")));
     ("hex", FBare (RPath (decoded_path "hex")))].

(** Rule R writes the whole payload as its one field. *)
Definition rule_R : point :=
  with_fields rule_B [("raw", FBare (RPath (Child Root (Fields "payload"))))].


(** ** Vocabulary of the statements *)





(** ** The other callbacks: [run] and [_on_mqtt_connect] *)

(** The configuration keys [run] reads besides the points. *)
Record connection : Type := {
  influxdb_database : string;      (* config['influxdb']['database'] *)
  mqtt_host : string;              (* config['mqtt']['host'] *)
  mqtt_port : Z                    (* config['mqtt']['port'] *)
}.

(** The calls [run] and [_on_mqtt_connect] make on the two clients. *)
Inductive client_call : Type :=
| CreateDatabase (db : string)
| SwitchDatabase (db : string)
| ConnectAsync (host : string) (port : Z) (keepalive : Z)
| LoopForever
| Subscribe (topic : string).

(** The two clients: what each of these calls does, returning or raising. *)
Record Clients : Type := {
  create_database : string -> outcome unit;
  switch_database : string -> outcome unit;
  connect_async : string -> Z -> Z -> outcome unit;
  loop_forever : outcome unit;
  subscribe : string -> outcome unit
}.

(** A sequence of calls: the calls made so far, and how the last one ended. *)
Definition calls : Type := (list client_call * outcome unit)%type.

Definition do_call (c : client_call) (res : outcome unit) : calls := ([c], res).

(** [a] and then, if [a] returned, [b]. *)
Definition and_then (a b : calls) : calls :=
  match a with
  | (cs, Ok _) => let (cs', r) := b in ((cs ++ cs')%list, r)
  | (cs, Raise e) => (cs, Raise e)
  end.

(** Lines 68-71: a database for every point that names one. *)
Fixpoint create_point_databases (c : Clients) (ps : list point) : calls :=
  match ps with
  | [] => ([], Ok tt)
  | p :: rest =>
      match pt_database p with
      | Some db =>
          and_then (do_call (CreateDatabase db) (create_database c db))
                   (create_point_databases c rest)
      | None => create_point_databases c rest
      end
  end.

(** [run] (lines 63-79); the last call, [loop_forever], is the one the
    program stays in. *)
Definition run (c : Clients) (cfg : config) (conn : connection) : calls :=
  and_then (do_call (CreateDatabase (influxdb_database conn))
                    (create_database c (influxdb_database conn)))
 (and_then (do_call (SwitchDatabase (influxdb_database conn))
                    (switch_database c (influxdb_database conn)))
 (and_then (create_point_databases c (points cfg))
 (and_then (do_call (ConnectAsync (mqtt_host conn) (mqtt_port conn) 10)
                    (connect_async c (mqtt_host conn) (mqtt_port conn) 10))
           (do_call LoopForever (loop_forever c))))).

(** paho's [CONNACK_ACCEPTED]. *)
Definition CONNACK_ACCEPTED : Z := 0.

(** Lines 84-91: the reason logged for a refused connection,
    [lut.get(rc, 'unknown code')] over paho's five refusal codes. *)
Definition refusal_reason (rc : Z) : string :=
  if rc =? 1 then "incorrect protocol version"
  else if rc =? 2 then "invalid client identifier"
  else if rc =? 3 then "server unavailable"
  else if rc =? 4 then "bad username or password"
  else if rc =? 5 then "not authorised"
  else "unknown code".

(** Lines 94-96: one [subscribe] for each point, in order. *)
Fixpoint subscribe_all (c : Clients) (ps : list point) : calls :=
  match ps with
  | [] => ([], Ok tt)
  | p :: rest =>
      and_then (do_call (Subscribe (pt_topic p)) (subscribe c (pt_topic p)))
               (subscribe_all c rest)
  end.

(** [_on_mqtt_connect] (lines 81-96): the error it logs, if any, and the
    calls it makes. *)
Definition _on_mqtt_connect (c : Clients) (cfg : config) (rc : Z)
  : option string * calls :=
  (if rc =? CONNACK_ACCEPTED then None else Some (refusal_reason rc),
   if rc =? CONNACK_ACCEPTED then subscribe_all c (points cfg)
   else ([], Ok tt)).

(** ** More vocabulary and samples *)


Definition is_Write (e : effect) : bool :=
  match e with Write _ _ => true | HttpCall _ _ => false end.


(** Clients on which every call returns. *)
Definition ref_clients : Clients :=
  {| create_database := fun _ => Ok tt;
     switch_database := fun _ => Ok tt;
     connect_async := fun _ _ _ => Ok tt;
     loop_forever := Ok tt;
     subscribe := fun _ => Ok tt |}.

Definition sample_connection : connection :=
  {| influxdb_database := "sensors"; mqtt_host := "localhost";
     mqtt_port := 1883 |}.

Definition with_database (p : point) (db : string) : point :=
  {| pt_topic := pt_topic p; pt_measurement := pt_measurement p;
     pt_schedule := pt_schedule p; pt_fields := pt_fields p;
     pt_tags := pt_tags p; pt_database := Some db;
     pt_httpcontent := pt_httpcontent p |}.

Definition with_tags (p : point) (ts : list (string * value_ref)) : point :=
  {| pt_topic := pt_topic p; pt_measurement := pt_measurement p;
     pt_schedule := pt_schedule p; pt_fields := pt_fields p;
     pt_tags := Some ts; pt_database := pt_database p;
     pt_httpcontent := pt_httpcontent p |}.

Definition with_httpcontent (p : point) (content : list (string * value_ref))
  : point :=
  {| pt_topic := pt_topic p; pt_measurement := pt_measurement p;
     pt_schedule := pt_schedule p; pt_fields := pt_fields p;
     pt_tags := pt_tags p; pt_database := pt_database p;
     pt_httpcontent := Some content |}.


(** The configuration that forwards over HTTP with the verb post. *)
Definition sample_http : http_config :=
  {| action := "post"; destination := "http://example.org/in";
     username := "user"; password := "secret" |}.

Definition config_http (ps : list point) : config :=
  {| points := ps; base64decode := None; http := Some sample_http |}.

(** [int(v)] where the reference host leaves it open: a [str] with an ASCII
    letter in it is no decimal number, a [ValueError]. *)
Definition has_letter (s : string) : bool :=
  existsb (fun c => let n := N_of_ascii c in
                    (in_range 65 90 n || in_range 97 122 n)%bool)
          (list_ascii_of_string s).

Definition ref_int_of_text (v : pyval) : outcome pyval :=
  match v with
  | PStr s => if has_letter s then Raise ValueError else ref_int v
  | _ => ref_int v
  end.

(** The reference host with this [int]. *)
Definition int_host : Host := {|
  topic_matches_sub := ref_topic_matches_sub;
  json_loads := ref_json_loads;
  is_now := ref_is_now;
  utcnow := ref_utcnow;
  utcoffset := fun _ => 0;
  float_seconds := fun _ => not_modelled "float timestamp";
  find := ref_find;
  variable_to_jsonpath := ref_variable_to_jsonpath;
  json_path := ref_json_path;
  variables := ref_variables;
  evaluate := ref_evaluate;
  b64decode := ref_b64decode;
  builtins_getattr := fun name =>
    if String.eqb name "int" then Some (Callable ref_int_of_text)
    else ref_builtins_getattr name;
  write_points := fun _ _ => Ok tt;
  requests_getattr := ref_requests_getattr
|}.

(** * Properties *)

(** ** The builtin operations on sample inputs *)

Example rfc3339_utc_1700000000 :
  rfc3339_utc 1700000000 = "2023-11-14T22:13:20Z".
Proof. reflexivity. Qed.

Example rfc3339_utc_leap_day :
  rfc3339_utc 1709210096 = "2024-02-29T12:34:56Z".
Proof. reflexivity. Qed.

Example rfc3339_utc_epoch : rfc3339_utc 0 = "1970-01-01T00:00:00Z".
Proof. reflexivity. Qed.

Example strftime_year_999 :
  strftime (datetime_of_seconds (-30641662555)) = "999-01-02T03:04:05Z"
  /\ rfc3339_utc (-30641662555) = "0999-01-02T03:04:05Z".
Proof. split; reflexivity. Qed.

(** From the year 1000 on, [strftime] writes the RFC 3339 form. *)
Lemma strftime_four_digit_year (dt : datetime) :
  1000 <= year dt -> strftime dt = render pad4 dt.
Proof.
  intros Hy. unfold strftime, render, year_text.
  destruct (Z.ltb_spec (year dt) 10); [lia|].
  destruct (Z.ltb_spec (year dt) 100); [lia|].
  destruct (Z.ltb_spec (year dt) 1000); [lia|].
  reflexivity.
Qed.

Example decode_utf8_rejects_ff :
  decode_utf8 [Byte.xff] = Raise UnicodeDecodeError.
Proof. reflexivity. Qed.

Example decode_utf8_accepts_two_byte_form :
  decode_utf8 [Byte.xc3; Byte.xa9] = Ok (string_of_list_byte [Byte.xc3; Byte.xa9]).
Proof. reflexivity. Qed.

Example decode_utf8_rejects_overlong_form :
  decode_utf8 [Byte.xc0; Byte.x80] = Raise UnicodeDecodeError.
Proof. reflexivity. Qed.

Example bytes_hex_hi : bytes_hex [Byte.x68; Byte.x69] = "6869".
Proof. reflexivity. Qed.

Example split_topic : split_on "/" "sensors/a/temp" = ["sensors"; "a"; "temp"].
Proof. reflexivity. Qed.

Example topic_wildcards :
  ref_topic_matches_sub "sensors/+/temp" "sensors/a/temp" = true
  /\ ref_topic_matches_sub "sensors/+/temp" "sensors/a/b/temp" = false
  /\ ref_topic_matches_sub "sensors/#" "sensors/a/b/temp" = true.
Proof. repeat split; reflexivity. Qed.

Example placeholder_path :
  ref_variable_to_jsonpath "JSON__payload__value" = "$.payload.value"
  /\ ref_json_path "$.payload.value" = Ok (payload_path "value").
Proof. split; reflexivity. Qed.

(** ** Dicts *)

Lemma dict_get_set_same (k : string) (v : pyval) (d : pydict) :
  dict_get k (dict_set k v d) = Some v.
Proof.
  induction d as [|[k' v'] d IH]; simpl.
  - now rewrite String.eqb_refl.
  - destruct (String.eqb k k') eqn:E; simpl; rewrite E; auto.
Qed.

Lemma dict_get_set_other (k k' : string) (v : pyval) (d : pydict) :
  k <> k' -> dict_get k (dict_set k' v d) = dict_get k d.
Proof.
  intros Hne. induction d as [|[k0 v0] d IH]; simpl.
  - destruct (String.eqb_spec k k'); [contradiction | reflexivity].
  - destruct (String.eqb_spec k' k0) as [->|Hk0]; simpl.
    + destruct (String.eqb_spec k k0); [contradiction | reflexivity].
    + destruct (String.eqb_spec k k0); [reflexivity | exact IH].
Qed.

(** In a dict (keys pairwise distinct) the first entry found under a key is
    the entry of that key. *)
Lemma find_key_unique {A : Type} (k : string) (a : A) (l : list (string * A)) :
  NoDup (map fst l) -> In (k, a) l ->
  List.find (fun kv => String.eqb k (fst kv)) l = Some (k, a).
Proof.
  induction l as [|[k' a'] l IH]; simpl; intros Hnd Hin; [contradiction|].
  inversion Hnd as [|? ? Hnotin Hnd']; subst.
  destruct Hin as [Heq|Hin].
  - inversion Heq; subst. now rewrite String.eqb_refl.
  - destruct (String.eqb_spec k k') as [->|Hne].
    + exfalso. apply Hnotin. change k' with (fst (k', a)). now apply in_map.
    + now apply IH.
Qed.

Lemma is_None_false (v : pyval) : is_None v = false <-> v <> PNone.
Proof. destruct v; simpl; split; intros; try congruence; try discriminate. Qed.

(** ** The field loop *)

Section FieldLoop.

Variable h : Host.
Variable fs : list (string * field_spec).
Variable msg : pydict.

(** A key the rest of the loop does not visit keeps what it had. *)
Lemma fields_loop_untouched (key : string) :
  forall todo acc0 acc,
    fields_loop h fs todo msg acc0 = Ok acc ->
    ~ In key (map fst todo) ->
    dict_get key acc = dict_get key acc0.
Proof.
  induction todo as [|[k spec] todo IH]; simpl; intros acc0 acc Hrun Hnot.
  - now inversion Hrun.
  - destruct (field_value h fs msg k spec) as [val|e]; simpl in Hrun;
      [|discriminate].
    assert (Hk : key <> k) by (intros ->; apply Hnot; now left).
    assert (Hrest : ~ In key (map fst todo)) by (intros Hin; apply Hnot; now right).
    destruct (is_None val).
    + now apply IH.
    + rewrite (IH _ _ Hrun Hrest). now apply dict_get_set_other.
Qed.

(** A key of the dict whose value comes out as something other than [None]
    holds that value when the loop is done. *)
Lemma fields_loop_sets (key : string) (spec : field_spec) (val : pyval) :
  forall todo acc0 acc,
    NoDup (map fst todo) ->
    In (key, spec) todo ->
    field_value h fs msg key spec = Ok val ->
    val <> PNone ->
    fields_loop h fs todo msg acc0 = Ok acc ->
    dict_get key acc = Some val.
Proof.
  induction todo as [|[k spec'] todo IH]; simpl;
    intros acc0 acc Hnd Hin Hval Hnn Hrun; [contradiction|].
  inversion Hnd as [|? ? Hnotin Hnd']; subst.
  destruct Hin as [Heq|Hin].
  - inversion Heq; subst. rewrite Hval in Hrun; simpl in Hrun.
    apply is_None_false in Hnn. rewrite Hnn in Hrun.
    rewrite (fields_loop_untouched key _ _ _ Hrun Hnotin).
    apply dict_get_set_same.
  - destruct (field_value h fs msg k spec') as [v'|e]; simpl in Hrun;
      [|discriminate].
    destruct (is_None v'); eapply IH; eauto.
Qed.


End FieldLoop.

(** ** Coercions *)

(** With the sibling key 'type' set to the literal booltoint, the legacy
    branch is on. *)
Lemma type_is_booltoint_of_entry (fs : list (string * field_spec)) :
  NoDup (map fst fs) ->
  In ("type", FBare (RStr "booltoint")) fs ->
  type_is_booltoint fs = true.
Proof.
  intros Hnd Hin. unfold type_is_booltoint.
  now rewrite (find_key_unique _ _ _ Hnd Hin).
Qed.

(** C6, as amended: in the bare shorthand, where the field dict has the key
    'value' as a bare value reference next to the key 'type' with the literal
    booltoint, a 'value' that resolves to the boolean true is emitted as the
    integer 1, and false as the integer 0. *)
Theorem booltoint_shorthand_emits_integer
  (h : Host) (p : point) (fs : list (string * field_spec)) (v : value_ref)
  (msg : pydict) (b : bool) (emitted : pyval) :
  pt_fields p = Some (FieldsMap fs) ->
  NoDup (map fst fs) ->
  In ("value", FBare v) fs ->
  In ("type", FBare (RStr "booltoint")) fs ->
  _get_value_from_str_or_JSONPath h v msg = Ok (PBool b) ->
  record_fields h p msg = Ok emitted ->
  exists d, emitted = PDict d
            /\ dict_get "value" d = Some (PInt (if b then 1 else 0)).
Proof.
  intros Hfs Hnd Hvalue Htype Hres Hrun.
  unfold record_fields in Hrun. rewrite Hfs in Hrun.
  destruct (fields_loop h fs fs msg []) as [d|e] eqn:Hloop; simpl in Hrun;
    [|discriminate].
  inversion Hrun; subst. exists d. split; [reflexivity|].
  eapply fields_loop_sets with (spec := FBare v); eauto.
  - simpl. rewrite Hres. simpl. unfold legacy_booltoint. simpl.
    now rewrite (type_is_booltoint_of_entry fs Hnd Htype).
  - discriminate.
Qed.

(** The shorthand on the reference host: payload value true, fields
    value: $.payload.value, type: booltoint. *)
Lemma booltoint_shorthand_emits_integer_witness :
  exists d,
    PDict [("value", PInt 1); ("type", PStr "int")] = PDict d
    /\ dict_get "value" d = Some (PInt 1).
Proof.
  apply (booltoint_shorthand_emits_integer utc_host
           (with_fields rule_B
              [("value", FBare (RPath (payload_path "value")));
               ("type", FBare (RStr "booltoint"))])
           [("value", FBare (RPath (payload_path "value")));
            ("type", FBare (RStr "booltoint"))]
           (RPath (payload_path "value"))
           (context_of (message_of (text_value "true")) (PDict [("value", PBool true)]))
           true).
  - reflexivity.
  - repeat constructor; simpl; intuition discriminate.
  - simpl; auto.
  - simpl; auto.
  - reflexivity.
  - reflexivity.
Defined.

(** C6, as stated, fails for the typed shape: a field given as
    value: $.payload.value, type: booltoint is written as the boolean it
    resolved to, because no builtin is called booltoint. *)
Lemma typed_booltoint_keeps_boolean :
  _on_mqtt_message utc_host
    (config_of
       [with_fields rule_B
          [("flag", FTyped (RPath (payload_path "value")) "booltoint")]])
    (message_of (text_value "true"))
  = ([Write {| measurement := PStr "temperature";
               time := "2023-11-14T22:23:20Z";
               tags := [];
               fields := PDict [("flag", PBool true)] |} None],
     Returned).
Proof. vm_compute. reflexivity. Qed.

(** C8, as amended: a conversion name under which the builtins module has
    no attribute (or a false one) leaves the resolved value as it is and
    raises nothing; the field is emitted with that value. *)
Theorem unknown_conversion_is_identity
  (h : Host) (p : point) (fs : list (string * field_spec)) (key : string)
  (v : value_ref) (type : string) (msg : pydict) (val : pyval) :
  pt_fields p = Some (FieldsMap fs) ->
  NoDup (map fst fs) ->
  In (key, FTyped v type) fs ->
  attr_truthy (builtins_getattr h type) = false ->
  _get_value_from_str_or_JSONPath h v msg = Ok val ->
  convert h type val = Ok val
  /\ field_value h fs msg key (FTyped v type) = Ok val
  /\ (val <> PNone ->
      forall emitted, record_fields h p msg = Ok emitted ->
      exists d, emitted = PDict d /\ dict_get key d = Some val).
Proof.
  intros Hfs Hnd Hin Hunknown Hres.
  assert (Hconv : convert h type val = Ok val)
    by (unfold convert; now rewrite Hunknown).
  assert (Hfv : field_value h fs msg key (FTyped v type) = Ok val).
  { simpl. rewrite Hres. simpl. destruct val; simpl; auto. }
  repeat split; auto.
  intros Hnn emitted Hrun.
  unfold record_fields in Hrun. rewrite Hfs in Hrun.
  destruct (fields_loop h fs fs msg []) as [d|e] eqn:Hloop; simpl in Hrun;
    [|discriminate].
  inversion Hrun; subst. exists d. split; [reflexivity|].
  eapply fields_loop_sets; eauto.
Qed.

(** The conversion name integer, which is no builtin, on the reference host
    and the payload value -5. *)
Lemma unknown_conversion_is_identity_witness :
  convert utc_host "integer" (PInt (-5)) = Ok (PInt (-5))
  /\ field_value utc_host
       [("v", FTyped (RPath (payload_path "value")) "integer")]
       (context_of (message_of (text_value "-5")) (PDict [("value", PInt (-5))]))
       "v" (FTyped (RPath (payload_path "value")) "integer")
     = Ok (PInt (-5))
  /\ (PInt (-5) <> PNone ->
      forall emitted,
        record_fields utc_host
          (with_fields rule_B
             [("v", FTyped (RPath (payload_path "value")) "integer")])
          (context_of (message_of (text_value "-5")) (PDict [("value", PInt (-5))]))
        = Ok emitted ->
        exists d, emitted = PDict d /\ dict_get "v" d = Some (PInt (-5))).
Proof.
  apply (unknown_conversion_is_identity utc_host
           (with_fields rule_B
              [("v", FTyped (RPath (payload_path "value")) "integer")])
           [("v", FTyped (RPath (payload_path "value")) "integer")]
           "v" (RPath (payload_path "value")) "integer").
  - reflexivity.
  - repeat constructor; simpl; intuition discriminate.
  - simpl; auto.
  - reflexivity.
  - reflexivity.
Defined.

(** C8, as stated, fails for a name that is a builtin without being one of
    the four constructors: with type abs the value -5 is written as 5. *)
Lemma conversion_abs_changes_value :
  _on_mqtt_message utc_host
    (config_of
       [with_fields rule_B [("v", FTyped (RPath (payload_path "value")) "abs")]])
    (message_of (text_value "-5"))
  = ([Write {| measurement := PStr "temperature";
               time := "2023-11-14T22:23:20Z";
               tags := [];
               fields := PDict [("v", PInt 5)] |} None],
     Returned).
Proof. vm_compute. reflexivity. Qed.

(** ** Expressions *)

Section Binding.

Variable h : Host.
Variable msg : pydict.



End Binding.



(** ** Decoding the payload *)




(** ** The schedule gate *)

(** The context cannot be had only when there is none yet and the payload
    does not decode. *)
Lemma ensure_msg_raises
  (h : Host) (ctx : option (pydict * pyval)) (m : message) (e : exn) :
  ensure_msg h ctx m = Raise e ->
  decode_utf8 (m_payload m) = Raise e
  /\ (ctx = None \/ exists payload, ctx = Some ([], payload)).
Proof.
  assert (Hb : build_msg h m = Raise e -> decode_utf8 (m_payload m) = Raise e).
  { unfold build_msg. destruct (decode_utf8 (m_payload m)); simpl;
      intros H; [discriminate H | now inversion H]. }
  destruct ctx as [[msg payload]|]; simpl.
  - destruct msg; [|discriminate]. intros H. split; [auto | right; eauto].
  - intros H. split; [auto | now left].
Qed.

Lemma ensure_msg_of_decoded
  (h : Host) (ctx : option (pydict * pyval)) (m : message) (text : string) :
  decode_utf8 (m_payload m) = Ok text -> exists c, ensure_msg h ctx m = Ok c.
Proof.
  intros Hdec.
  assert (Hb : exists c, build_msg h m = Ok c)
    by (unfold build_msg; rewrite Hdec; simpl; eauto).
  destruct ctx as [[msg payload]|]; simpl; [|exact Hb].
  destruct msg; simpl; eauto.
Qed.

(** C9, as amended: a matching rule whose schedule is not now builds no
    record and makes no sink call, whatever the payload; when the message
    context is there (an earlier rule built it, or the payload is valid
    UTF-8) the handler goes on with the next rule; when the rule is the
    first to match and the payload is not valid UTF-8, the decode raises
    before the gate is looked at and the handler ends with that exception. *)
Theorem schedule_gate_skips_rule
  (h : Host) (cfg : config) (i : nat) (p : point) (s : string)
  (ctx : option (pydict * pyval)) (m : message) :
  topic_matches_sub h (pt_topic p) (m_topic m) = true ->
  pt_schedule p = Some s ->
  is_now h i s = Ok false ->
  fst (rule_step h cfg i p ctx m) = []
  /\ (forall c, ensure_msg h ctx m = Ok c ->
        rule_step h cfg i p ctx m = ([], Continue (Some c))
        /\ forall rest,
             dispatch h cfg i (p :: rest) ctx m
             = dispatch h cfg (S i) rest (Some c) m)
  /\ (forall text, decode_utf8 (m_payload m) = Ok text ->
        exists c, ensure_msg h ctx m = Ok c)
  /\ (forall msg payload, ctx = Some (msg, payload) -> msg <> [] ->
        ensure_msg h ctx m = Ok (msg, payload))
  /\ (forall e, ensure_msg h ctx m = Raise e ->
        decode_utf8 (m_payload m) = Raise e
        /\ forall rest, dispatch h cfg i (p :: rest) ctx m = ([], Uncaught e)).
Proof.
  intros Hmatch Hsched Hnow.
  assert (Hskip : skipped_by_schedule h i p = Ok true)
    by (unfold skipped_by_schedule; rewrite Hsched, Hnow; reflexivity).
  assert (Hstep : forall c, ensure_msg h ctx m = Ok c ->
            rule_step h cfg i p ctx m = ([], Continue (Some c))).
  { intros [msg payload] Hctx. unfold rule_step.
    now rewrite Hmatch, Hctx, Hskip. }
  split; [|split; [|split; [|split]]].
  - destruct (ensure_msg h ctx m) as [c|e] eqn:Hctx.
    + now rewrite (Hstep c eq_refl).
    + unfold rule_step. now rewrite Hmatch, Hctx.
  - intros c Hctx. split; [now apply Hstep|].
    intros rest. simpl. rewrite (Hstep c Hctx).
    now destruct (dispatch h cfg (S i) rest (Some c) m).
  - intros text Hdec. now apply ensure_msg_of_decoded with (text := text).
  - intros msg payload -> Hne. simpl. destruct msg; [contradiction | reflexivity].
  - intros e Hctx. split; [now apply (ensure_msg_raises h ctx m e)|].
    intros rest. cbn [dispatch]. unfold rule_step. now rewrite Hmatch, Hctx.
Qed.

(** Rule B under a schedule that is not now, followed by rule B. *)
Lemma schedule_gate_skips_rule_witness :
  fst (rule_step utc_host (config_of []) 0 (with_schedule rule_B "0 0 1 1 *")
         None (message_of text_timestamp_value)) = []
  /\ (forall c,
        ensure_msg utc_host None (message_of text_timestamp_value) = Ok c ->
        rule_step utc_host (config_of []) 0 (with_schedule rule_B "0 0 1 1 *")
          None (message_of text_timestamp_value)
        = ([], Continue (Some c))
        /\ forall rest,
             dispatch utc_host (config_of []) 0
               (with_schedule rule_B "0 0 1 1 *" :: rest) None
               (message_of text_timestamp_value)
             = dispatch utc_host (config_of []) 1 rest (Some c)
                 (message_of text_timestamp_value))
  /\ (forall text,
        decode_utf8 (m_payload (message_of text_timestamp_value)) = Ok text ->
        exists c,
          ensure_msg utc_host None (message_of text_timestamp_value) = Ok c)
  /\ (forall msg payload, None = Some (msg, payload) -> msg <> [] ->
        ensure_msg utc_host None (message_of text_timestamp_value)
        = Ok (msg, payload))
  /\ (forall e,
        ensure_msg utc_host None (message_of text_timestamp_value) = Raise e ->
        decode_utf8 (m_payload (message_of text_timestamp_value)) = Raise e
        /\ forall rest,
             dispatch utc_host (config_of []) 0
               (with_schedule rule_B "0 0 1 1 *" :: rest) None
               (message_of text_timestamp_value)
             = ([], Uncaught e)).
Proof.
  apply (schedule_gate_skips_rule utc_host (config_of []) 0
           (with_schedule rule_B "0 0 1 1 *") "0 0 1 1 *");
    reflexivity.
Defined.

(** C9, as stated, fails when the gated rule is the first to match and the
    body is not UTF-8: the handler does not go on to rule B, which is next
    and matches; it ends with the decode's exception. *)
Lemma gated_rule_on_non_utf8_payload :
  _on_mqtt_message utc_host
    (config_of [with_schedule rule_B "0 0 1 1 *"; rule_B])
    (message_on "sensors/a/temp" [Byte.xff])
  = ([], Uncaught UnicodeDecodeError)
  /\ _on_mqtt_message utc_host
       (config_of [with_schedule rule_B "0 0 1 1 *"; rule_B])
       (message_of text_timestamp_value)
     = ([Write (record_B "2023-11-14T22:13:20Z") None], Returned).
Proof. split; vm_compute; reflexivity. Qed.

(** ** The record's time *)




(** A text that does not parse as JSON reaches the rules as a string, and
    a string has no embedded timestamp. *)
Lemma degraded_payload_uses_clock
  (h : Host) (i : nat) (m : message) (text : string) :
  decode_utf8 (m_payload m) = Ok text ->
  json_loads h (if String.eqb text "" then "null" else text) = None ->
  exists s,
    build_msg h m = Ok (context_of m (PStr s), PStr s)
    /\ record_time h i (PStr s) = utcnow_text h i.
Proof.
  intros Hdec Hjson. exists (if String.eqb text "" then "null" else text).
  split.
  - unfold build_msg. rewrite Hdec. cbn [bind]. now rewrite Hjson.
  - reflexivity.
Qed.


(** The same message through the whole handler: the record is written, with
    the clock's time. *)
Example string_payload_is_written :
  _on_mqtt_message utc_host (config_of [rule_R]) (message_of "hello")
  = ([Write {| measurement := PStr "temperature";
               time := "2023-11-14T22:23:20Z";
               tags := [];
               fields := PDict [("raw", PStr "hello")] |} None],
     Returned).
Proof. vm_compute. reflexivity. Qed.

(** ** What reaches the sink *)

Section Emission.

Variable h : Host.
Variable cfg : config.







End Emission.




(** ** The handler's [return] *)

(** A rule whose record is given up ends the handler: the rules after it
    are not looked at. *)
Lemma abort_ends_dispatch
  (h : Host) (cfg : config) (i : nat) (p : point) (rest : list point)
  (ctx : option (pydict * pyval)) (m : message) (msg : pydict)
  (payload : pyval) :
  topic_matches_sub h (pt_topic p) (m_topic m) = true ->
  ensure_msg h ctx m = Ok (msg, payload) ->
  skipped_by_schedule h i p = Ok false ->
  build_record h cfg i p msg payload = Abort ->
  dispatch h cfg i (p :: rest) ctx m = ([], Returned).
Proof.
  intros Hmatch Hctx Hgate Hb. simpl. unfold rule_step.
  now rewrite Hmatch, Hctx, Hgate, Hb.
Qed.

(** A measurement that resolves to [None] gives the record up. *)
Lemma missing_measurement_aborts
  (h : Host) (cfg : config) (i : nat) (p : point) (msg : pydict)
  (payload : pyval) :
  _get_value_from_str_or_JSONPath h (pt_measurement p) msg = Ok PNone ->
  build_record h cfg i p msg payload = Abort.
Proof. unfold build_record. now intros ->. Qed.

(** So a rule whose measurement is missing silences every rule after it. *)
Lemma missing_measurement_ends_dispatch
  (h : Host) (cfg : config) (i : nat) (p : point) (rest : list point)
  (ctx : option (pydict * pyval)) (m : message) (msg : pydict)
  (payload : pyval) :
  topic_matches_sub h (pt_topic p) (m_topic m) = true ->
  ensure_msg h ctx m = Ok (msg, payload) ->
  skipped_by_schedule h i p = Ok false ->
  _get_value_from_str_or_JSONPath h (pt_measurement p) msg = Ok PNone ->
  dispatch h cfg i (p :: rest) ctx m = ([], Returned).
Proof.
  intros Hmatch Hctx Hgate Hm.
  eapply abort_ends_dispatch; eauto using missing_measurement_aborts.
Qed.

(** C1, the code on two rules that match the topic sensors/a/temp: with
    rule A (measurement missing) or rule E (no field found) ahead of rule B
    the handler returns and rule B writes nothing; with rule B ahead of rule
    A, rule B's record is written. *)
Theorem failed_rule_stops_later_rules :
  _on_mqtt_message utc_host (config_of [rule_A; rule_B])
    (message_of text_timestamp_value) = ([], Returned)
  /\ _on_mqtt_message utc_host (config_of [rule_E; rule_B])
       (message_of text_timestamp_value) = ([], Returned)
  /\ _on_mqtt_message utc_host (config_of [rule_B; rule_A])
       (message_of text_timestamp_value)
     = ([Write (record_B "2023-11-14T22:13:20Z") None], Returned)
  /\ _on_mqtt_message utc_host (config_of [rule_B])
       (message_of text_timestamp_value)
     = ([Write (record_B "2023-11-14T22:13:20Z") None], Returned).
Proof. repeat split; vm_compute; reflexivity. Qed.

(** ** The embedded timestamp *)

Lemma dict_get_Some_keys (k : string) (v : pyval) (d : pydict) :
  dict_get k d = Some v -> existsb (String.eqb k) (map fst d) = true.
Proof.
  induction d as [|[k' v'] d IH]; simpl; [discriminate|].
  destruct (String.eqb k k'); simpl; auto.
Qed.

Lemma dict_get_None_keys (k : string) (d : pydict) :
  dict_get k d = None -> existsb (String.eqb k) (map fst d) = false.
Proof.
  induction d as [|[k' v'] d IH]; simpl; [reflexivity|].
  destruct (String.eqb k k'); simpl; [discriminate | auto].
Qed.

(** An integer under the key 'timestamp' that [fromtimestamp] takes is
    rendered in the host's local time, with the letter Z after it. *)
Lemma record_time_of_embedded_seconds
  (h : Host) (i : nat) (kvs : pydict) (secs : Z) :
  dict_get "timestamp" kvs = Some (PInt secs) ->
  1 <= year (datetime_of_seconds (secs + utcoffset h secs)) <= 9999 ->
  1 <= year (datetime_of_seconds (secs - 86400 + utcoffset h (secs - 86400))) ->
  record_time h i (PDict kvs)
  = strftime (datetime_of_seconds (secs + utcoffset h secs)).
Proof.
  intros Hget [Hlo Hhi] Hprobe.
  unfold record_time, embedded_time, py_keys, py_getitem, fromtimestamp.
  cbn [bind]. rewrite (dict_get_Some_keys _ _ _ Hget), Hget. cbn [bind].
  apply Z.leb_le in Hlo. apply Z.leb_le in Hhi. apply Z.leb_le in Hprobe.
  now rewrite Hlo, Hhi, Hprobe.
Qed.

(** On a host whose local time is UTC at that instant, this is the RFC 3339
    rendering in UTC. *)
Lemma record_time_on_utc_host
  (h : Host) (i : nat) (kvs : pydict) (secs : Z) :
  dict_get "timestamp" kvs = Some (PInt secs) ->
  utcoffset h secs = 0 ->
  1000 <= year (datetime_of_seconds secs) <= 9999 ->
  1 <= year (datetime_of_seconds (secs - 86400 + utcoffset h (secs - 86400))) ->
  record_time h i (PDict kvs) = rfc3339_utc secs.
Proof.
  intros Hget Hutc [Hlo Hhi] Hprobe.
  rewrite (record_time_of_embedded_seconds h i kvs secs Hget);
    rewrite ?Hutc, ?Z.add_0_r; try lia; try assumption.
  now apply strftime_four_digit_year.
Qed.

(** The first day of the year 1 is refused, for the look one day back; the
    second is taken. *)
Example fromtimestamp_year_one :
  fromtimestamp utc_host (PInt (-62135510401)) = Raise ValueError
  /\ fromtimestamp utc_host (PInt (-62135510400))
     = Ok {| year := 1; month := 1; day := 2;
             hour := 0; minute := 0; second := 0 |}
  /\ fromtimestamp utc_host (PInt 253402300800) = Raise ValueError.
Proof. repeat split; reflexivity. Qed.

(** Without the key, and whenever reading it raises, the time is the
    clock's. *)
Lemma record_time_without_timestamp (h : Host) (i : nat) (kvs : pydict) :
  dict_get "timestamp" kvs = None ->
  record_time h i (PDict kvs) = utcnow_text h i.
Proof.
  intros Hget. unfold record_time, embedded_time, py_keys. cbn [bind].
  now rewrite (dict_get_None_keys _ _ Hget).
Qed.

Lemma record_time_on_exception (h : Host) (i : nat) (payload : pyval) (e : exn) :
  embedded_time h payload = Raise e ->
  record_time h i payload = utcnow_text h i.
Proof. unfold record_time. now intros ->. Qed.

(** C2, the code on the payload with timestamp 1700000000 and value 5: on a
    host one hour ahead of UTC the record's time reads 23:13:20Z, while the
    UTC rendering of that instant is 22:13:20Z; on a host on UTC the two
    agree. *)
Theorem embedded_timestamp_is_local_time :
  _on_mqtt_message cet_host (config_of [rule_B])
    (message_of text_timestamp_value)
  = ([Write (record_B "2023-11-14T23:13:20Z") None], Returned)
  /\ rfc3339_utc 1700000000 = "2023-11-14T22:13:20Z"
  /\ _on_mqtt_message utc_host (config_of [rule_B])
       (message_of text_timestamp_value)
     = ([Write (record_B (rfc3339_utc 1700000000)) None], Returned).
Proof. repeat split; vm_compute; reflexivity. Qed.

(** ** The base64 side channel *)

(** After the merge the key base64decoded holds the hex string alone: the
    second [update] replaces the dict the first one stored. *)
Lemma base64_merge_keeps_hex_only
  (h : Host) (cfg : config) (source : value_ref) (target : string)
  (msg msg' : pydict) :
  base64decode cfg = Some (source, target) ->
  base64_merge h cfg msg = Ok msg' ->
  exists bs,
    dict_get "base64decoded" msg'
    = Some (PDict [(target, PDict [("hex", PStr (bytes_hex bs))])]).
Proof.
  intros Hcfg. unfold base64_merge. rewrite Hcfg.
  destruct (_get_value_from_str_or_JSONPath h source msg) as [data|];
    simpl; [|discriminate].
  destruct (b64decode h data) as [bs|]; simpl; [|discriminate].
  intros H. inversion H; subst. exists bs. apply dict_get_set_same.
Qed.

(** C4, the code with the side channel decoding payload.data into the key
    data, on the payload whose data is the base64 text of the two bytes
    68 69: after the merge the path base64decoded.data.hex resolves to the
    hex string and base64decoded.data.raw resolves to nothing, and rule C,
    which asks for both, writes the hex field only. *)
Theorem base64_merge_loses_raw_bytes :
  let msg := context_of (message_of text_data_value)
               (PDict [("data", PStr "aGk="); ("value", PInt 5)]) in
  let merged := (msg ++ [("base64decoded",
                          PDict [("data", PDict [("hex", PStr "6869")])])])%list in
  base64_merge utc_host (config_base64 []) msg = Ok merged
  /\ _get_value_from_str_or_JSONPath utc_host (RPath (decoded_path "hex")) merged
     = Ok (PStr "6869")
  /\ _get_value_from_str_or_JSONPath utc_host (RPath (decoded_path "raw")) merged
     = Ok PNone
  /\ _on_mqtt_message utc_host (config_base64 [rule_C])
       (message_of text_data_value)
     = ([Write {| measurement := PStr "temperature";
                  time := "2023-11-14T22:23:20Z";
                  tags := [];
                  fields := PDict [("hex", PStr "6869")] |} None],
        Returned).
Proof. repeat split; vm_compute; reflexivity. Qed.

(** * Further properties of the handler *)

(** ** Inversion of the builder and of the loop *)

(** Where each part of an emitted record comes from. *)
Lemma build_record_Emit_inv
  (h : Host) (cfg : config) (i : nat) (p : point) (msg msg' : pydict)
  (payload : pyval) (r : record) :
  build_record h cfg i p msg payload = Emit msg' r ->
  _get_value_from_str_or_JSONPath h (pt_measurement p) msg = Ok (measurement r)
  /\ base64_merge h cfg msg = Ok msg'
  /\ record_fields h p msg' = Ok (fields r)
  /\ record_tags h p msg' = Ok (tags r)
  /\ time r = record_time h i payload.
Proof.
  unfold build_record. intros H.
  destruct (_get_value_from_str_or_JSONPath h (pt_measurement p) msg)
    as [mv|] eqn:Hm; [|discriminate].
  destruct (is_None mv); [discriminate|].
  destruct (base64_merge h cfg msg) as [msg1|] eqn:Hb; [|discriminate].
  destruct (record_fields h p msg1) as [fv|] eqn:Hf; [|discriminate].
  destruct (negb (py_truthy fv)); [discriminate|].
  destruct (record_tags h p msg1) as [ts|] eqn:Ht; [|discriminate].
  inversion H; subst; simpl. repeat split; auto.
Qed.

(** What [submit] calls: one write, of the record given, to the rule's
    database, and after it at most one HTTP call. *)
Lemma submit_shape
  (h : Host) (cfg : config) (p : point) (msg : pydict) (r : record) :
  fst (submit h cfg p msg r) = [Write r (pt_database p)]
  \/ exists hc content d,
       http cfg = Some hc /\ pt_httpcontent p = Some content
       /\ refs_loop h content msg [] = Ok d
       /\ fst (submit h cfg p msg r)
          = [Write r (pt_database p);
             HttpCall (action hc)
               {| url := destination hc; data := d;
                  auth := (username hc, password hc) |}].
Proof.
  unfold submit.
  destruct (write_points h r (pt_database p)); [|now left].
  destruct (http cfg) as [hc|]; [|now left].
  destruct (pt_httpcontent p) as [content|]; [|now left].
  destruct (refs_loop h content msg []) as [d|] eqn:Hd; [|now left].
  destruct (requests_getattr h (action hc)); [|now left].
  right. exists hc, content, d. repeat split; auto.
Qed.

(** The effects of one pass are those of [submit] on an emitted record, and
    there are none unless the topic matched and the schedule let the rule
    through. *)
Lemma rule_step_effects
  (h : Host) (cfg : config) (i : nat) (p : point)
  (ctx : option (pydict * pyval)) (m : message) :
  fst (rule_step h cfg i p ctx m) = []
  \/ topic_matches_sub h (pt_topic p) (m_topic m) = true
     /\ skipped_by_schedule h i p = Ok false
     /\ exists msg payload msg' r,
          ensure_msg h ctx m = Ok (msg, payload)
          /\ build_record h cfg i p msg payload = Emit msg' r
          /\ fst (rule_step h cfg i p ctx m) = fst (submit h cfg p msg' r).
Proof.
  unfold rule_step.
  destruct (topic_matches_sub h (pt_topic p) (m_topic m)); [|now left].
  destruct (ensure_msg h ctx m) as [[msg payload]|]; [|now left].
  destruct (skipped_by_schedule h i p) as [[|]|]; try (now left).
  destruct (build_record h cfg i p msg payload) as [msg' r| |] eqn:Hb;
    try (now left).
  right. repeat split; auto. exists msg, payload, msg', r.
  repeat split; auto.
  destruct (submit h cfg p msg' r) as [es res]. now destruct res.
Qed.

(** Every effect of the handler is an effect of one pass, for one of the
    points. *)
Lemma dispatch_effect_inv
  (h : Host) (cfg : config) (m : message) (e : effect) :
  forall ps i ctx,
    In e (fst (dispatch h cfg i ps ctx m)) ->
    exists j p c, In p ps /\ In e (fst (rule_step h cfg j p c m)).
Proof.
  induction ps as [|p ps IH]; simpl; intros i ctx Hin; [contradiction|].
  destruct (rule_step h cfg i p ctx m) as [es f] eqn:Hstep.
  assert (Hes : In e es ->
            exists j p0 c, In p0 (p :: ps)
                           /\ In e (fst (rule_step h cfg j p0 c m))).
  { intros H. exists i, p, ctx. split; [now left|]. now rewrite Hstep. }
  destruct f as [ctx'| |]; simpl in Hin; auto.
  destruct (dispatch h cfg (S i) ps ctx' m) as [es' s] eqn:Hd. simpl in Hin.
  apply in_app_or in Hin. destruct Hin as [Hin|Hin]; auto.
  destruct (IH (S i) ctx') as (j & p0 & c & Hp0 & Hw); [now rewrite Hd|].
  exists j, p0, c. split; [now right | exact Hw].
Qed.

(** A write of one pass, traced back. *)
Lemma rule_step_write_inv
  (h : Host) (cfg : config) (i : nat) (p : point)
  (ctx : option (pydict * pyval)) (m : message) (r : record)
  (db : option string) :
  In (Write r db) (fst (rule_step h cfg i p ctx m)) ->
  topic_matches_sub h (pt_topic p) (m_topic m) = true
  /\ skipped_by_schedule h i p = Ok false
  /\ db = pt_database p
  /\ exists msg payload msg',
       build_record h cfg i p msg payload = Emit msg' r.
Proof.
  intros Hin.
  destruct (rule_step_effects h cfg i p ctx m)
    as [Hnil|(Hm & Hs & msg & payload & msg' & r0 & _ & Hb & Heq)].
  - rewrite Hnil in Hin. contradiction.
  - rewrite Heq in Hin.
    assert (Hw : Write r db = Write r0 (pt_database p)).
    { destruct (submit_shape h cfg p msg' r0)
        as [Hsh|(hc & content & d & _ & _ & _ & Hsh)];
        rewrite Hsh in Hin; simpl in Hin;
        intuition (try discriminate; congruence). }
    inversion Hw; subst. repeat split; auto. eauto.
Qed.

(** ** Topics *)

Lemma dispatch_no_match (h : Host) (cfg : config) (m : message) :
  forall ps i ctx,
    Forall (fun p => topic_matches_sub h (pt_topic p) (m_topic m) = false) ps ->
    dispatch h cfg i ps ctx m = ([], Returned).
Proof.
  induction ps as [|p ps IH]; intros i ctx Hall; [reflexivity|].
  inversion Hall as [|? ? Hp Hps]; subst. simpl. unfold rule_step.
  rewrite Hp. now rewrite (IH (S i) ctx Hps).
Qed.

(** X1: a message whose topic matches none of the configured patterns is
    left alone: the payload is not even decoded, nothing is written or
    forwarded, and the handler returns, be the payload what it may. *)
Theorem unmatched_topic_is_ignored (h : Host) (cfg : config) (m : message) :
  Forall (fun p => topic_matches_sub h (pt_topic p) (m_topic m) = false)
         (points cfg) ->
  _on_mqtt_message h cfg m = ([], Returned).
Proof. intros Hall. unfold _on_mqtt_message. now apply dispatch_no_match. Qed.

(** A payload that is not UTF-8, on a topic the rules A and B do not match. *)
Lemma unmatched_topic_is_ignored_witness :
  _on_mqtt_message utc_host (config_of [rule_A; rule_B])
    (message_on "actuators/a" [Byte.xff]) = ([], Returned).
Proof.
  apply (unmatched_topic_is_ignored utc_host (config_of [rule_A; rule_B])
           (message_on "actuators/a" [Byte.xff])).
  repeat constructor.
Defined.

(** X2: every record written belongs to a configured point whose pattern
    matches the message's topic and whose schedule, if it has one, is now; it
    goes to that point's database, and a measurement given as a literal is
    the record's measurement. *)
Theorem write_provenance
  (h : Host) (cfg : config) (m : message) (r : record) (db : option string) :
  In (Write r db) (fst (_on_mqtt_message h cfg m)) ->
  exists p, In p (points cfg)
    /\ topic_matches_sub h (pt_topic p) (m_topic m) = true
    /\ db = pt_database p
    /\ (forall s, pt_schedule p = Some s -> exists i, is_now h i s = Ok true)
    /\ (forall lit, pt_measurement p = RStr lit -> measurement r = PStr lit).
Proof.
  intros Hin. unfold _on_mqtt_message in Hin.
  apply dispatch_effect_inv in Hin. destruct Hin as (j & p & c & Hp & Hw).
  apply rule_step_write_inv in Hw.
  destruct Hw as (Hm & Hs & Hdb & msg & payload & msg' & Hb).
  exists p. repeat split; auto.
  - intros s Hsched. exists j. unfold skipped_by_schedule in Hs.
    rewrite Hsched in Hs. destruct (is_now h j s) as [[|]|]; simpl in Hs;
      congruence.
  - intros lit Hlit. apply build_record_Emit_inv in Hb.
    destruct Hb as (Hmeas & _). rewrite Hlit in Hmeas. simpl in Hmeas.
    congruence.
Qed.

(** Rule B, with a database of its own, on the sample payload. *)
Lemma write_provenance_witness :
  exists p, In p [with_database rule_B "weather"]
    /\ topic_matches_sub utc_host (pt_topic p) "sensors/a/temp" = true
    /\ Some "weather" = pt_database p
    /\ (forall s, pt_schedule p = Some s ->
          exists i, is_now utc_host i s = Ok true)
    /\ (forall lit, pt_measurement p = RStr lit ->
          measurement (record_B "2023-11-14T22:13:20Z") = PStr lit).
Proof.
  apply (write_provenance utc_host (config_of [with_database rule_B "weather"])
           (message_of text_timestamp_value)
           (record_B "2023-11-14T22:13:20Z") (Some "weather")).
  vm_compute. left. reflexivity.
Defined.

(** ** What a record holds *)

Lemma dict_set_In (k k0 : string) (v v0 : pyval) (d : pydict) :
  In (k, v) (dict_set k0 v0 d) -> (k = k0 /\ v = v0) \/ In (k, v) d.
Proof.
  induction d as [|[k' v'] d IH]; simpl.
  - intros [H|[]]. inversion H. now left.
  - destruct (String.eqb_spec k0 k') as [->|Hne]; simpl.
    + intros [H|H]; [inversion H; now left | right; now right].
    + intros [H|H]; [right; now left|].
      destruct (IH H) as [?|?]; [now left | right; now right].
Qed.

(** The loop over tags (and over the HTTP content) stores no [None] and no
    key of its own making. *)
Lemma refs_loop_entries (h : Host) (msg : pydict) :
  forall todo acc d,
    refs_loop h todo msg acc = Ok d ->
    forall k v, In (k, v) d ->
      In (k, v) acc \/ (v <> PNone /\ In k (map fst todo)).
Proof.
  induction todo as [|[key ref] todo IH]; simpl; intros acc d Hrun k v Hin.
  - inversion Hrun; subst. now left.
  - destruct (_get_value_from_str_or_JSONPath h ref msg) as [val|];
      simpl in Hrun; [|discriminate].
    destruct (is_None val) eqn:Hn.
    + destruct (IH _ _ Hrun k v Hin) as [?|[? ?]]; [now left | right; auto].
    + destruct (IH _ _ Hrun k v Hin) as [Hacc|[? ?]]; [|right; auto].
      apply dict_set_In in Hacc. destruct Hacc as [[-> ->]|?]; [|now left].
      right. split; [now apply is_None_false | now left].
Qed.




(** ** How many records *)

Lemma submit_one_write
  (h : Host) (cfg : config) (p : point) (msg : pydict) (r : record) :
  List.length (filter is_Write (fst (submit h cfg p msg r))) = 1%nat.
Proof.
  destruct (submit_shape h cfg p msg r)
    as [Hsh|(hc & content & d & _ & _ & _ & Hsh)]; now rewrite Hsh.
Qed.

Lemma rule_step_writes_at_most_one
  (h : Host) (cfg : config) (i : nat) (p : point)
  (ctx : option (pydict * pyval)) (m : message) :
  (List.length (filter is_Write (fst (rule_step h cfg i p ctx m)))
   <= if topic_matches_sub h (pt_topic p) (m_topic m) then 1 else 0)%nat.
Proof.
  destruct (rule_step_effects h cfg i p ctx m)
    as [Hnil|(Hm & _ & msg & payload & msg' & r & _ & _ & Heq)].
  - rewrite Hnil. simpl. lia.
  - rewrite Heq, Hm, submit_one_write. lia.
Qed.

(** X4: one message makes at most one write for each point whose pattern
    matches its topic. *)
Theorem at_most_one_write_per_matching_point
  (h : Host) (cfg : config) (m : message) :
  (List.length (filter is_Write (fst (_on_mqtt_message h cfg m)))
   <= List.length
        (filter (fun p => topic_matches_sub h (pt_topic p) (m_topic m))
                (points cfg)))%nat.
Proof.
  unfold _on_mqtt_message. generalize 0%nat (@None (pydict * pyval)).
  induction (points cfg) as [|p ps IH]; intros i ctx; simpl; [lia|].
  pose proof (rule_step_writes_at_most_one h cfg i p ctx m) as Hone.
  destruct (rule_step h cfg i p ctx m) as [es f]. simpl in Hone.
  assert (Hes : (List.length (filter is_Write es)
                 <= List.length
                      (filter (fun p => topic_matches_sub h (pt_topic p) (m_topic m))
                              (p :: ps)))%nat).
  { simpl. destruct (topic_matches_sub h (pt_topic p) (m_topic m)); simpl; lia. }
  destruct f as [ctx'| |]; simpl; auto.
  specialize (IH (S i) ctx').
  destruct (dispatch h cfg (S i) ps ctx' m) as [es' s]. simpl in *.
  rewrite filter_app, length_app.
  destruct (topic_matches_sub h (pt_topic p) (m_topic m)); simpl; lia.
Qed.

(** ** The message context across the rules *)






(** Rule B and then rule C, which reads the key base64decoded: both
    passes run the side channel, and both records are written. *)
Example side_channel_reaches_later_rules :
  _on_mqtt_message utc_host (config_base64 [rule_B; rule_C])
    (message_of text_data_value)
  = ([Write {| measurement := PStr "temperature";
               time := "2023-11-14T22:23:20Z";
               tags := [];
               fields := PDict [("value", PInt 5)] |} None;
      Write {| measurement := PStr "temperature";
               time := "2023-11-14T22:23:20Z";
               tags := [];
               fields := PDict [("hex", PStr "6869")] |} None],
     Returned).
Proof. vm_compute. reflexivity. Qed.




(** ** Tags *)

Lemma refs_loop_all_None (h : Host) (msg : pydict) :
  forall todo acc,
    Forall (fun kv => _get_value_from_str_or_JSONPath h (snd kv) msg = Ok PNone)
           todo ->
    refs_loop h todo msg acc = Ok acc.
Proof.
  induction todo as [|[k ref] todo IH]; simpl; intros acc Hall; [reflexivity|].
  inversion Hall as [|? ? Hhd Htl]; subst. simpl in Hhd.
  rewrite Hhd. simpl. now apply IH.
Qed.

(** X7: tags do not decide whether a record is written: when the
    measurement and the fields are there and every configured tag resolves
    to [None], the record is emitted with an empty tag set. *)
Theorem unresolved_tags_do_not_block
  (h : Host) (cfg : config) (i : nat) (p : point) (msg msg1 : pydict)
  (payload mv fv : pyval) (ts : list (string * value_ref)) :
  _get_value_from_str_or_JSONPath h (pt_measurement p) msg = Ok mv ->
  mv <> PNone ->
  base64_merge h cfg msg = Ok msg1 ->
  record_fields h p msg1 = Ok fv ->
  py_truthy fv = true ->
  pt_tags p = Some ts ->
  Forall (fun kv => _get_value_from_str_or_JSONPath h (snd kv) msg1 = Ok PNone)
         ts ->
  build_record h cfg i p msg payload
  = Emit msg1 {| measurement := mv; time := record_time h i payload;
                 tags := []; fields := fv |}.
Proof.
  intros Hm Hmv Hmerge Hf Hfv Hts Hall. unfold build_record.
  rewrite Hm. apply is_None_false in Hmv. rewrite Hmv, Hmerge, Hf, Hfv.
  simpl. unfold record_tags. rewrite Hts.
  now rewrite (refs_loop_all_None h msg1 ts [] Hall).
Qed.

(** Rule B with the one tag site, which the sample payload lacks. *)
Lemma unresolved_tags_do_not_block_witness :
  build_record utc_host (config_of []) 0
    (with_tags rule_B [("site", RPath (payload_path "site"))])
    (context_of (message_of (text_value "10")) (PDict [("value", PInt 10)]))
    (PDict [("value", PInt 10)])
  = Emit (context_of (message_of (text_value "10")) (PDict [("value", PInt 10)]))
      {| measurement := PStr "temperature";
         time := record_time utc_host 0 (PDict [("value", PInt 10)]);
         tags := [];
         fields := PDict [("value", PInt 10)] |}.
Proof.
  apply (unresolved_tags_do_not_block utc_host (config_of []) 0
           (with_tags rule_B [("site", RPath (payload_path "site"))])
           (context_of (message_of (text_value "10")) (PDict [("value", PInt 10)]))
           (context_of (message_of (text_value "10")) (PDict [("value", PInt 10)]))
           (PDict [("value", PInt 10)]) (PStr "temperature")
           (PDict [("value", PInt 10)])
           [("site", RPath (payload_path "site"))]).
  - reflexivity.
  - discriminate.
  - reflexivity.
  - reflexivity.
  - reflexivity.
  - reflexivity.
  - repeat constructor.
Defined.


(** ** Conversions that fail *)

(** A key whose value comes out as [None] is left out of the record. *)
Lemma fields_loop_omits
  (h : Host) (fs : list (string * field_spec)) (msg : pydict)
  (key : string) (spec : field_spec) :
  forall todo acc0 acc,
    NoDup (map fst todo) ->
    In (key, spec) todo ->
    field_value h fs msg key spec = Ok PNone ->
    fields_loop h fs todo msg acc0 = Ok acc ->
    dict_get key acc = dict_get key acc0.
Proof.
  induction todo as [|[k spec'] todo IH]; simpl;
    intros acc0 acc Hnd Hin Hval Hrun; [contradiction|].
  inversion Hnd as [|? ? Hnotin Hnd']; subst.
  destruct Hin as [Heq|Hin].
  - inversion Heq; subst. rewrite Hval in Hrun. simpl in Hrun.
    now apply (fields_loop_untouched h fs msg key todo).
  - assert (Hk : key <> k).
    { intros ->. apply Hnotin. change k with (fst (k, spec)). now apply in_map. }
    destruct (field_value h fs msg k spec') as [v'|]; simpl in Hrun;
      [|discriminate].
    destruct (is_None v').
    + now apply (IH acc0).
    + rewrite (IH _ _ Hnd' Hin Hval Hrun). now apply dict_get_set_other.
Qed.

(** One field that raises makes the whole loop raise. *)
Lemma fields_loop_raises
  (h : Host) (fs : list (string * field_spec)) (msg : pydict)
  (key : string) (spec : field_spec) (e : exn) :
  field_value h fs msg key spec = Raise e ->
  forall todo acc,
    In (key, spec) todo ->
    exists e', fields_loop h fs todo msg acc = Raise e'.
Proof.
  intros Hraise.
  induction todo as [|[k spec'] todo IH]; simpl; intros acc Hin; [contradiction|].
  destruct Hin as [Heq|Hin].
  - inversion Heq; subst. rewrite Hraise. simpl. eauto.
  - destruct (field_value h fs msg k spec') as [v'|e0]; simpl; [|eauto].
    destruct (is_None v'); now apply IH.
Qed.

(** A key whose value comes out as [None] might as well not be in the
    dict: the loop gives what it gives without it. *)
Lemma fields_loop_skip
  (h : Host) (fs : list (string * field_spec)) (msg : pydict)
  (key : string) (spec : field_spec) :
  field_value h fs msg key spec = Ok PNone ->
  forall before after acc,
    fields_loop h fs (before ++ (key, spec) :: after) msg acc
    = fields_loop h fs (before ++ after) msg acc.
Proof.
  intros Hval.
  induction before as [|[k spec'] before IH]; intros after acc; simpl.
  - now rewrite Hval.
  - destruct (field_value h fs msg k spec') as [v'|]; simpl; [|reflexivity].
    destruct (is_None v'); apply IH.
Qed.

(** X8: when the conversion of a typed field raises a [ValueError] (or a
    subclass of it), that field alone is left out of the record and the loop
    goes on: the field loop gives exactly what it gives over the other
    fields, so the record lacks the key and holds every other field whose
    value is there, and nothing is raised on the failed field's account. *)
Theorem failed_conversion_omits_field
  (h : Host) (p : point) (fs : list (string * field_spec)) (key : string)
  (v : value_ref) (type : string) (msg : pydict) (val : pyval)
  (f : pyval -> outcome pyval) (e : exn) :
  pt_fields p = Some (FieldsMap fs) ->
  NoDup (map fst fs) ->
  In (key, FTyped v type) fs ->
  _get_value_from_str_or_JSONPath h v msg = Ok val ->
  val <> PNone ->
  builtins_getattr h type = Some (Callable f) ->
  f val = Raise e ->
  is_ValueError e = true ->
  field_value h fs msg key (FTyped v type) = Ok PNone
  /\ (forall before after,
        fs = (before ++ (key, FTyped v type) :: after)%list ->
        record_fields h p msg
        = (d <- fields_loop h fs (before ++ after) msg [] ;; Ok (PDict d)))
  /\ forall emitted, record_fields h p msg = Ok emitted ->
       exists d, emitted = PDict d
         /\ dict_get key d = None
         /\ forall key' spec' val',
              In (key', spec') fs ->
              field_value h fs msg key' spec' = Ok val' ->
              val' <> PNone ->
              dict_get key' d = Some val'.
Proof.
  intros Hfs Hnd Hin Hres Hnn Hattr Hf He.
  assert (Hfv : field_value h fs msg key (FTyped v type) = Ok PNone).
  { simpl. rewrite Hres. simpl. apply is_None_false in Hnn. rewrite Hnn.
    unfold convert. rewrite Hattr. simpl. now rewrite Hf, He. }
  split; [exact Hfv|]. split.
  - intros before after Hsplit. unfold record_fields. rewrite Hfs.
    rewrite Hsplit at 2.
    now rewrite (fields_loop_skip h fs msg key _ Hfv before after []).
  - intros emitted Hrun. unfold record_fields in Hrun. rewrite Hfs in Hrun.
    destruct (fields_loop h fs fs msg []) as [d|] eqn:Hloop; simpl in Hrun;
      [|discriminate].
    inversion Hrun; subst. exists d. split; [reflexivity|]. split.
    + now rewrite (fields_loop_omits h fs msg key _ fs [] d Hnd Hin Hfv Hloop).
    + intros key' spec' val' Hin' Hval' Hnn'.
      now apply (fields_loop_sets h fs msg key' spec' val' fs [] d).
Qed.

(** The text hello under a rule that wants it as an integer, ahead of the
    text itself. *)
Lemma failed_conversion_omits_field_witness :
  field_value int_host
    [("n", FTyped (RPath (Child Root (Fields "payload"))) "int");
     ("raw", FBare (RPath (Child Root (Fields "payload"))))]
    (context_of (message_of "hello") (PStr "hello"))
    "n" (FTyped (RPath (Child Root (Fields "payload"))) "int")
  = Ok PNone
  /\ (forall before after,
        [("n", FTyped (RPath (Child Root (Fields "payload"))) "int");
         ("raw", FBare (RPath (Child Root (Fields "payload"))))]
        = (before
           ++ ("n", FTyped (RPath (Child Root (Fields "payload"))) "int")
              :: after)%list ->
        record_fields int_host
          (with_fields rule_B
             [("n", FTyped (RPath (Child Root (Fields "payload"))) "int");
              ("raw", FBare (RPath (Child Root (Fields "payload"))))])
          (context_of (message_of "hello") (PStr "hello"))
        = (d <- fields_loop int_host
                  [("n", FTyped (RPath (Child Root (Fields "payload"))) "int");
                   ("raw", FBare (RPath (Child Root (Fields "payload"))))]
                  (before ++ after)
                  (context_of (message_of "hello") (PStr "hello")) [] ;;
           Ok (PDict d)))
  /\ forall emitted,
       record_fields int_host
         (with_fields rule_B
            [("n", FTyped (RPath (Child Root (Fields "payload"))) "int");
             ("raw", FBare (RPath (Child Root (Fields "payload"))))])
         (context_of (message_of "hello") (PStr "hello"))
       = Ok emitted ->
       exists d, emitted = PDict d
         /\ dict_get "n" d = None
         /\ forall key' spec' val',
              In (key', spec')
                 [("n", FTyped (RPath (Child Root (Fields "payload"))) "int");
                  ("raw", FBare (RPath (Child Root (Fields "payload"))))] ->
              field_value int_host
                [("n", FTyped (RPath (Child Root (Fields "payload"))) "int");
                 ("raw", FBare (RPath (Child Root (Fields "payload"))))]
                (context_of (message_of "hello") (PStr "hello")) key' spec'
              = Ok val' ->
              val' <> PNone ->
              dict_get key' d = Some val'.
Proof.
  apply (failed_conversion_omits_field int_host
           (with_fields rule_B
              [("n", FTyped (RPath (Child Root (Fields "payload"))) "int");
               ("raw", FBare (RPath (Child Root (Fields "payload"))))])
           [("n", FTyped (RPath (Child Root (Fields "payload"))) "int");
            ("raw", FBare (RPath (Child Root (Fields "payload"))))]
           "n" (RPath (Child Root (Fields "payload"))) "int"
           (context_of (message_of "hello") (PStr "hello"))
           (PStr "hello") ref_int_of_text ValueError).
  - reflexivity.
  - repeat constructor; simpl; intuition discriminate.
  - simpl; auto.
  - reflexivity.
  - discriminate.
  - reflexivity.
  - reflexivity.
  - reflexivity.
Defined.

(** The same message through the handler: the record has the field raw
    only. *)
Example failed_conversion_record :
  _on_mqtt_message int_host
    (config_of
       [with_fields rule_B
          [("n", FTyped (RPath (Child Root (Fields "payload"))) "int");
           ("raw", FBare (RPath (Child Root (Fields "payload"))))]])
    (message_of "hello")
  = ([Write {| measurement := PStr "temperature";
               time := "2023-11-14T22:23:20Z";
               tags := [];
               fields := PDict [("raw", PStr "hello")] |} None],
     Returned).
Proof. vm_compute. reflexivity. Qed.

(** X9: when the conversion of a typed field raises anything that is not a
    [ValueError] (a [TypeError], say), nothing catches it: the rule writes
    nothing, the exception leaves the handler, and the rules after it are
    not processed. *)
Theorem conversion_error_aborts_handler
  (h : Host) (cfg : config) (i : nat) (p : point) (rest : list point)
  (ctx : option (pydict * pyval)) (m : message) (msg msg1 : pydict)
  (payload mv : pyval) (fs : list (string * field_spec)) (key : string)
  (v : value_ref) (type : string) (val : pyval)
  (f : pyval -> outcome pyval) (e : exn) :
  topic_matches_sub h (pt_topic p) (m_topic m) = true ->
  ensure_msg h ctx m = Ok (msg, payload) ->
  skipped_by_schedule h i p = Ok false ->
  _get_value_from_str_or_JSONPath h (pt_measurement p) msg = Ok mv ->
  mv <> PNone ->
  base64_merge h cfg msg = Ok msg1 ->
  pt_fields p = Some (FieldsMap fs) ->
  In (key, FTyped v type) fs ->
  _get_value_from_str_or_JSONPath h v msg1 = Ok val ->
  val <> PNone ->
  builtins_getattr h type = Some (Callable f) ->
  f val = Raise e ->
  is_ValueError e = false ->
  exists e', dispatch h cfg i (p :: rest) ctx m = ([], Uncaught e').
Proof.
  intros Hmatch Hctx Hgate Hm Hmv Hmerge Hfs Hin Hres Hnn Hattr Hf He.
  assert (Hfv : field_value h fs msg1 key (FTyped v type) = Raise e).
  { simpl. rewrite Hres. simpl. apply is_None_false in Hnn. rewrite Hnn.
    unfold convert. rewrite Hattr. simpl. now rewrite Hf, He. }
  destruct (fields_loop_raises h fs msg1 key _ e Hfv fs [] Hin) as [e' Hloop].
  exists e'. cbn [dispatch]. unfold rule_step.
  rewrite Hmatch, Hctx, Hgate. unfold build_record.
  rewrite Hm. apply is_None_false in Hmv. rewrite Hmv, Hmerge.
  unfold record_fields. rewrite Hfs, Hloop. reflexivity.
Qed.

(** The text hello under a rule that wants its absolute value, ahead of
    rule R. *)
Lemma conversion_error_aborts_handler_witness :
  exists e',
    dispatch utc_host (config_of []) 0
      (with_fields rule_B
         [("n", FTyped (RPath (Child Root (Fields "payload"))) "abs")]
       :: [rule_R])
      None (message_of "hello")
    = ([], Uncaught e').
Proof.
  apply (conversion_error_aborts_handler utc_host (config_of []) 0
           (with_fields rule_B
              [("n", FTyped (RPath (Child Root (Fields "payload"))) "abs")])
           [rule_R] None (message_of "hello")
           (context_of (message_of "hello") (PStr "hello"))
           (context_of (message_of "hello") (PStr "hello"))
           (PStr "hello") (PStr "temperature")
           [("n", FTyped (RPath (Child Root (Fields "payload"))) "abs")]
           "n" (RPath (Child Root (Fields "payload"))) "abs"
           (PStr "hello") ref_abs TypeError).
  - reflexivity.
  - reflexivity.
  - reflexivity.
  - reflexivity.
  - discriminate.
  - reflexivity.
  - reflexivity.
  - simpl; auto.
  - reflexivity.
  - discriminate.
  - reflexivity.
  - reflexivity.
  - reflexivity.
Defined.

(** ** The legacy key 'type' *)

(** X10: a bare field under the key 'type' whose value resolves to the
    string booltoint is written to the record as the string int. *)
Theorem legacy_type_field_is_written_as_int
  (h : Host) (p : point) (fs : list (string * field_spec)) (v : value_ref)
  (msg : pydict) (emitted : pyval) :
  pt_fields p = Some (FieldsMap fs) ->
  NoDup (map fst fs) ->
  In ("type", FBare v) fs ->
  _get_value_from_str_or_JSONPath h v msg = Ok (PStr "booltoint") ->
  record_fields h p msg = Ok emitted ->
  exists d, emitted = PDict d /\ dict_get "type" d = Some (PStr "int").
Proof.
  intros Hfs Hnd Hin Hres Hrun.
  unfold record_fields in Hrun. rewrite Hfs in Hrun.
  destruct (fields_loop h fs fs msg []) as [d|] eqn:Hloop; simpl in Hrun;
    [|discriminate].
  inversion Hrun; subst. exists d. split; [reflexivity|].
  eapply fields_loop_sets with (spec := FBare v); eauto.
  - simpl. rewrite Hres. reflexivity.
  - discriminate.
Qed.

(** The shorthand value: $.payload.value, type: booltoint. *)
Lemma legacy_type_field_is_written_as_int_witness :
  exists d,
    PDict [("value", PInt 1); ("type", PStr "int")] = PDict d
    /\ dict_get "type" d = Some (PStr "int").
Proof.
  apply (legacy_type_field_is_written_as_int utc_host
           (with_fields rule_B
              [("value", FBare (RPath (payload_path "value")));
               ("type", FBare (RStr "booltoint"))])
           [("value", FBare (RPath (payload_path "value")));
            ("type", FBare (RStr "booltoint"))]
           (RStr "booltoint")
           (context_of (message_of (text_value "true")) (PDict [("value", PBool true)]))).
  - reflexivity.
  - repeat constructor; simpl; intuition discriminate.
  - simpl; auto.
  - reflexivity.
  - reflexivity.
Defined.

(** ** Timestamps that cannot be used *)



(** ** HTTP forwarding *)

(** An HTTP call of [submit], traced back. *)
Lemma submit_http_inv
  (h : Host) (cfg : config) (p : point) (msg : pydict) (r : record)
  (verb : string) (req : http_request) :
  In (HttpCall verb req) (fst (submit h cfg p msg r)) ->
  exists hc content d act,
    http cfg = Some hc
    /\ pt_httpcontent p = Some content
    /\ refs_loop h content msg [] = Ok d
    /\ requests_getattr h (action hc) = Some act
    /\ write_points h r (pt_database p) = Ok tt
    /\ verb = action hc
    /\ req = {| url := destination hc; data := d;
                auth := (username hc, password hc) |}
    /\ fst (submit h cfg p msg r)
       = [Write r (pt_database p); HttpCall verb req].
Proof.
  unfold submit.
  destruct (write_points h r (pt_database p)) as [[]|] eqn:Hw;
    [|simpl; intuition discriminate].
  destruct (http cfg) as [hc|]; [|simpl; intuition discriminate].
  destruct (pt_httpcontent p) as [content|]; [|simpl; intuition discriminate].
  destruct (refs_loop h content msg []) as [d|] eqn:Hd;
    [|simpl; intuition discriminate].
  destruct (requests_getattr h (action hc)) as [act|] eqn:Ha;
    [|simpl; intuition discriminate].
  simpl. intros [H|[H|[]]]; [discriminate|].
  inversion H; subst. exists hc, content, d, act. repeat split; auto.
Qed.

(** Where the effects of one pass stand among those of the handler. *)
Lemma dispatch_effect_split
  (h : Host) (cfg : config) (m : message) (e : effect) :
  forall ps i ctx,
    In e (fst (dispatch h cfg i ps ctx m)) ->
    exists j p c es1 es2,
      In p ps
      /\ In e (fst (rule_step h cfg j p c m))
      /\ fst (dispatch h cfg i ps ctx m)
         = (es1 ++ fst (rule_step h cfg j p c m) ++ es2)%list.
Proof.
  induction ps as [|p ps IH]; intros i ctx Hin; [contradiction|].
  cbn [dispatch] in *.
  destruct (rule_step h cfg i p ctx m) as [es f] eqn:Hstep.
  assert (Hhere : forall tl, In e es ->
            exists j p0 c es1 es2,
              In p0 (p :: ps)
              /\ In e (fst (rule_step h cfg j p0 c m))
              /\ (es ++ tl)%list
                 = (es1 ++ fst (rule_step h cfg j p0 c m) ++ es2)%list).
  { intros tl H. exists i, p, ctx, [], tl. rewrite Hstep. simpl.
    repeat split; auto. }
  destruct f as [ctx'| |].
  - destruct (dispatch h cfg (S i) ps ctx' m) as [es' s] eqn:Hd.
    cbn [fst] in *. apply in_app_or in Hin. destruct Hin as [Hin|Hin].
    + now apply Hhere.
    + destruct (IH (S i) ctx') as (j & p0 & c & es1 & es2 & Hp0 & He & Heq);
        [now rewrite Hd|].
      rewrite Hd in Heq. cbn [fst] in Heq.
      exists j, p0, c, (es ++ es1)%list, es2.
      repeat split; [now right | exact He |].
      rewrite Heq. now rewrite <- app_assoc.
  - cbn [fst] in *. rewrite <- (app_nil_r es). now apply Hhere.
  - cbn [fst] in *. rewrite <- (app_nil_r es). now apply Hhere.
Qed.

(** X12: every HTTP call the handler makes comes right after the write of
    the same rule's record, which returned; forwarding is configured; the
    verb is the configured one and names an attribute of [requests]; the URL
    and the credentials are the configured ones; and the form data holds no
    [None]. *)
Theorem http_call_follows_its_write
  (h : Host) (cfg : config) (m : message) (verb : string)
  (req : http_request) :
  In (HttpCall verb req) (fst (_on_mqtt_message h cfg m)) ->
  exists hc act r db es1 es2,
    http cfg = Some hc
    /\ verb = action hc
    /\ requests_getattr h verb = Some act
    /\ url req = destination hc
    /\ auth req = (username hc, password hc)
    /\ (forall k v, In (k, v) (data req) -> v <> PNone)
    /\ write_points h r db = Ok tt
    /\ fst (_on_mqtt_message h cfg m)
       = (es1 ++ Write r db :: HttpCall verb req :: es2)%list.
Proof.
  intros Hin. unfold _on_mqtt_message in *.
  apply dispatch_effect_split in Hin.
  destruct Hin as (j & p & c & es1 & es2 & _ & He & Heq).
  destruct (rule_step_effects h cfg j p c m)
    as [Hnil|(_ & _ & msg & payload & msg' & r & _ & _ & Hsub)].
  { rewrite Hnil in He. contradiction. }
  rewrite Hsub in He, Heq.
  apply submit_http_inv in He.
  destruct He as (hc & content & d & act & Hhc & _ & Hd & Ha & Hw & -> & -> & Hsh).
  exists hc, act, r, (pt_database p), es1, es2. simpl.
  repeat split; auto.
  - intros k v Hkv.
    destruct (refs_loop_entries h msg' _ _ _ Hd k v Hkv) as [[]|[? _]]; auto.
  - rewrite Heq, Hsh. reflexivity.
Qed.

(** Rule B forwarding the payload's value with the verb post. *)
Lemma http_call_follows_its_write_witness :
  exists hc act r db es1 es2,
    http (config_http [with_httpcontent rule_B
                         [("v", RPath (payload_path "value"));
                          ("site", RPath (payload_path "site"))]])
    = Some hc
    /\ "post" = action hc
    /\ requests_getattr utc_host "post" = Some act
    /\ url {| url := "http://example.org/in"; data := [("v", PInt 5)];
              auth := ("user", "secret") |} = destination hc
    /\ auth {| url := "http://example.org/in"; data := [("v", PInt 5)];
               auth := ("user", "secret") |} = (username hc, password hc)
    /\ (forall k v,
          In (k, v) (data {| url := "http://example.org/in";
                             data := [("v", PInt 5)];
                             auth := ("user", "secret") |}) -> v <> PNone)
    /\ write_points utc_host r db = Ok tt
    /\ fst (_on_mqtt_message utc_host
              (config_http [with_httpcontent rule_B
                              [("v", RPath (payload_path "value"));
                               ("site", RPath (payload_path "site"))]])
              (message_of text_timestamp_value))
       = (es1 ++ Write r db
              :: HttpCall "post"
                   {| url := "http://example.org/in"; data := [("v", PInt 5)];
                      auth := ("user", "secret") |} :: es2)%list.
Proof.
  apply (http_call_follows_its_write utc_host
           (config_http [with_httpcontent rule_B
                           [("v", RPath (payload_path "value"));
                            ("site", RPath (payload_path "site"))]])
           (message_of text_timestamp_value) "post"
           {| url := "http://example.org/in"; data := [("v", PInt 5)];
              auth := ("user", "secret") |}).
  vm_compute. right. left. reflexivity.
Defined.

(** X13: with forwarding configured, a rule without the key 'httpcontent'
    has its record written and then fails with a [KeyError] that leaves the
    handler: the rules after it are not processed. *)
Theorem missing_httpcontent_aborts_after_write
  (h : Host) (cfg : config) (i : nat) (p : point) (rest : list point)
  (ctx : option (pydict * pyval)) (m : message) (msg msg' : pydict)
  (payload : pyval) (r : record) (hc : http_config) :
  http cfg = Some hc ->
  pt_httpcontent p = None ->
  topic_matches_sub h (pt_topic p) (m_topic m) = true ->
  ensure_msg h ctx m = Ok (msg, payload) ->
  skipped_by_schedule h i p = Ok false ->
  build_record h cfg i p msg payload = Emit msg' r ->
  write_points h r (pt_database p) = Ok tt ->
  dispatch h cfg i (p :: rest) ctx m
  = ([Write r (pt_database p)], Uncaught KeyError).
Proof.
  intros Hhc Hcontent Hmatch Hctx Hgate Hb Hw.
  cbn [dispatch]. unfold rule_step. rewrite Hmatch, Hctx, Hgate, Hb.
  unfold submit. now rewrite Hw, Hhc, Hcontent.
Qed.

(** Rule B, which has no 'httpcontent', ahead of rule R, with forwarding
    on. *)
Lemma missing_httpcontent_aborts_after_write_witness :
  dispatch utc_host (config_http []) 0 (rule_B :: [rule_R]) None
    (message_of text_timestamp_value)
  = ([Write (record_B "2023-11-14T22:13:20Z") (pt_database rule_B)],
     Uncaught KeyError).
Proof.
  apply (missing_httpcontent_aborts_after_write utc_host (config_http []) 0
           rule_B [rule_R] None (message_of text_timestamp_value)
           (context_of (message_of text_timestamp_value)
              (PDict [("timestamp", PInt 1700000000); ("value", PInt 5)]))
           (context_of (message_of text_timestamp_value)
              (PDict [("timestamp", PInt 1700000000); ("value", PInt 5)]))
           (PDict [("timestamp", PInt 1700000000); ("value", PInt 5)])
           (record_B "2023-11-14T22:13:20Z") sample_http);
    reflexivity.
Defined.

(** ** The topic in the context *)

Lemma split_on_not_nil (sep : ascii) (s : string) : split_on sep s <> [].
Proof.
  destruct s as [|c s]; simpl; [discriminate|].
  destruct (Ascii.eqb c sep); [discriminate|].
  destruct (split_on sep s); discriminate.
Qed.

Lemma concat_cons (sep x : string) (l : list string) :
  l <> [] -> String.concat sep (x :: l) = x ++ sep ++ String.concat sep l.
Proof. destruct l; [contradiction | reflexivity]. Qed.

(** [sep.join(s.split(sep))] is [s]. *)
Lemma concat_split_on (sep : ascii) (s : string) :
  String.concat (String sep EmptyString) (split_on sep s) = s.
Proof.
  induction s as [|c s IH]; [reflexivity|].
  pose proof (split_on_not_nil sep s) as Hne.
  cbn [split_on]. destruct (Ascii.eqb_spec c sep) as [->|Hc].
  - rewrite (concat_cons _ _ _ Hne), IH. reflexivity.
  - destruct (split_on sep s) as [|w ws] eqn:Hs; [contradiction|].
    destruct ws as [|w' ws].
    + cbn [String.concat] in *. now rewrite IH.
    + rewrite concat_cons by discriminate.
      rewrite concat_cons in IH by discriminate.
      rewrite <- IH. reflexivity.
Qed.

(** No piece of [s.split(sep)] has the separator in it. *)
Lemma split_on_pieces (sep : ascii) (s : string) :
  Forall (fun piece => ~ In sep (list_ascii_of_string piece)) (split_on sep s).
Proof.
  induction s as [|c s IH]; simpl.
  - constructor; [intros [] | constructor].
  - destruct (Ascii.eqb_spec c sep) as [->|Hc].
    + constructor; [intros [] | exact IH].
    + destruct (split_on sep s) as [|w ws]; [constructor; [|constructor]|].
      * simpl. intros [H|[]]. congruence.
      * inversion IH as [|? ? Hw Hws]; subst. constructor; [|exact Hws].
        simpl. intros [H|H]; [congruence | now apply Hw].
Qed.

(** X14: the context that is built for a message gives the topic as the
    list of its levels: joined with '/' they are the topic again, no level
    has a '/' in it, and there is at least one; payload, timestamp and qos
    stand under their keys. *)
Theorem context_holds_the_message
  (h : Host) (m : message) (msg : pydict) (payload : pyval) :
  build_msg h m = Ok (msg, payload) ->
  (exists levels,
     dict_get "topic" msg = Some (PList (map PStr levels))
     /\ String.concat "/" levels = m_topic m
     /\ levels <> []
     /\ Forall (fun l => ~ In "/"%char (list_ascii_of_string l)) levels)
  /\ dict_get "payload" msg = Some payload
  /\ dict_get "timestamp" msg = Some (m_timestamp m)
  /\ dict_get "qos" msg = Some (PInt (m_qos m)).
Proof.
  unfold build_msg. destruct (decode_utf8 (m_payload m)) as [text|];
    simpl; [|discriminate].
  intros H. inversion H; subst. repeat split.
  exists (split_on "/" (m_topic m)). repeat split.
  - apply concat_split_on.
  - apply split_on_not_nil.
  - apply split_on_pieces.
Qed.

(** The sample message on the topic sensors/a/temp. *)
Lemma context_holds_the_message_witness :
  (exists levels,
     dict_get "topic"
       (context_of (message_of text_timestamp_value)
          (PDict [("timestamp", PInt 1700000000); ("value", PInt 5)]))
     = Some (PList (map PStr levels))
     /\ String.concat "/" levels = "sensors/a/temp"
     /\ levels <> []
     /\ Forall (fun l => ~ In "/"%char (list_ascii_of_string l)) levels)
  /\ dict_get "payload"
       (context_of (message_of text_timestamp_value)
          (PDict [("timestamp", PInt 1700000000); ("value", PInt 5)]))
     = Some (PDict [("timestamp", PInt 1700000000); ("value", PInt 5)])
  /\ dict_get "timestamp"
       (context_of (message_of text_timestamp_value)
          (PDict [("timestamp", PInt 1700000000); ("value", PInt 5)]))
     = Some (PFloat 0%float)
  /\ dict_get "qos"
       (context_of (message_of text_timestamp_value)
          (PDict [("timestamp", PInt 1700000000); ("value", PInt 5)]))
     = Some (PInt 0).
Proof.
  apply (context_holds_the_message utc_host (message_of text_timestamp_value)).
  reflexivity.
Defined.

(** * Properties of [run] and [_on_mqtt_connect] *)

Lemma create_point_databases_calls (c : Clients) :
  forall ps cs r,
    create_point_databases c ps = (cs, r) ->
    (forall x, In x cs -> exists db, x = CreateDatabase db)
    /\ (r = Ok tt ->
        forall p db, In p ps -> pt_database p = Some db ->
          In (CreateDatabase db) cs /\ create_database c db = Ok tt).
Proof.
  induction ps as [|p ps IH]; simpl; intros cs r Hrun.
  - inversion Hrun; subst. split; [intros x [] | intros _ p db []].
  - destruct (pt_database p) as [db0|] eqn:Hdb.
    + unfold and_then, do_call in Hrun.
      destruct (create_database c db0) as [[]|e] eqn:Hc.
      * destruct (create_point_databases c ps) as [cs' r'] eqn:Hrest.
        inversion Hrun; subst. destruct (IH cs' r eq_refl) as [Hall Hok].
        split.
        -- intros x [<-|Hx]; [eauto | now apply Hall].
        -- intros Hr q db [<-|Hq] Hqdb.
           ++ rewrite Hdb in Hqdb. inversion Hqdb; subst.
              split; [now left | exact Hc].
           ++ destruct (Hok Hr q db Hq Hqdb). split; [now right | assumption].
      * inversion Hrun; subst. split; [|discriminate].
        intros x [<-|[]]. eauto.
    + destruct (IH cs r Hrun) as [Hall Hok]. split; [exact Hall|].
      intros Hr q db [<-|Hq] Hqdb; [congruence | exact (Hok Hr q db Hq Hqdb)].
Qed.

(** If [run] gets as far as connecting, then everything before it returned
    and the calls are the two for the main database, those for the points,
    the connection and the loop. *)
Lemma run_connect_inv
  (c : Clients) (cfg : config) (conn : connection)
  (host : string) (port ka : Z) :
  In (ConnectAsync host port ka) (fst (run c cfg conn)) ->
  exists cs post,
    create_database c (influxdb_database conn) = Ok tt
    /\ switch_database c (influxdb_database conn) = Ok tt
    /\ create_point_databases c (points cfg) = (cs, Ok tt)
    /\ ConnectAsync host port ka
       = ConnectAsync (mqtt_host conn) (mqtt_port conn) 10
    /\ fst (run c cfg conn)
       = ([CreateDatabase (influxdb_database conn);
           SwitchDatabase (influxdb_database conn)]
          ++ cs ++ ConnectAsync (mqtt_host conn) (mqtt_port conn) 10 :: post)%list.
Proof.
  unfold run, and_then, do_call.
  destruct (create_database c (influxdb_database conn)) as [[]|];
    [|simpl; intuition discriminate].
  destruct (switch_database c (influxdb_database conn)) as [[]|];
    [|simpl; intuition discriminate].
  destruct (create_point_databases c (points cfg)) as [cs r] eqn:Hcs.
  destruct (create_point_databases_calls c _ _ _ Hcs) as [Hall _].
  assert (Hnot : ~ In (ConnectAsync host port ka) cs).
  { intros Hin. destruct (Hall _ Hin) as [db Hdb]. discriminate. }
  destruct r as [[]|e].
  - destruct (connect_async c (mqtt_host conn) (mqtt_port conn) 10) as [[]|];
      cbn [fst]; intros Hin; rewrite !in_app_iff in Hin; simpl in Hin;
      assert (Heq : ConnectAsync host port ka
                    = ConnectAsync (mqtt_host conn) (mqtt_port conn) 10)
        by (intuition (try discriminate; try contradiction; congruence)).
    + exists cs, [LoopForever]. repeat split; auto.
    + exists cs, []. repeat split; auto.
  - cbn [fst]. intros Hin. rewrite !in_app_iff in Hin. simpl in Hin.
    exfalso. intuition discriminate.
Qed.



Example run_calls :
  run ref_clients (config_of [rule_A; with_database rule_B "weather"])
    sample_connection
  = ([CreateDatabase "sensors"; SwitchDatabase "sensors";
      CreateDatabase "weather"; ConnectAsync "localhost" 1883 10; LoopForever],
     Ok tt).
Proof. reflexivity. Qed.

(** X16: once [run] has connected, every database the handler writes to by
    name has been created: a write with a database override names a database
    for which [run] called [create_database], and the call returned. *)
Theorem written_databases_were_created
  (c : Clients) (h : Host) (cfg : config) (conn : connection)
  (host : string) (port ka : Z) (m : message) (r : record) (db : string) :
  In (ConnectAsync host port ka) (fst (run c cfg conn)) ->
  In (Write r (Some db)) (fst (_on_mqtt_message h cfg m)) ->
  In (CreateDatabase db) (fst (run c cfg conn))
  /\ create_database c db = Ok tt.
Proof.
  intros Hconn Hw. unfold _on_mqtt_message in Hw.
  apply dispatch_effect_inv in Hw. destruct Hw as (j & p & ctx & Hp & Hw).
  apply rule_step_write_inv in Hw. destruct Hw as (_ & _ & Hdb & _).
  destruct (run_connect_inv c cfg conn host port ka Hconn)
    as (cs & post & _ & _ & Hcs & _ & Hcalls).
  destruct (create_point_databases_calls c _ _ _ Hcs) as [_ Hok].
  destruct (Hok eq_refl p db Hp (eq_sym Hdb)) as [Hin Hret].
  split; [|exact Hret]. rewrite Hcalls.
  apply in_or_app. right. apply in_or_app. now left.
Qed.

(** Rule B writing to the database weather. *)
Lemma written_databases_were_created_witness :
  In (CreateDatabase "weather")
     (fst (run ref_clients (config_of [with_database rule_B "weather"])
             sample_connection))
  /\ create_database ref_clients "weather" = Ok tt.
Proof.
  apply (written_databases_were_created ref_clients utc_host
           (config_of [with_database rule_B "weather"]) sample_connection
           "localhost" 1883 10 (message_of text_timestamp_value)
           (record_B "2023-11-14T22:13:20Z") "weather").
  - vm_compute. right. right. right. left. reflexivity.
  - vm_compute. left. reflexivity.
Defined.

(** ** Subscriptions *)

Lemma subscribe_all_returned (c : Clients) :
  forall ps cs,
    subscribe_all c ps = (cs, Ok tt) ->
    cs = map (fun p => Subscribe (pt_topic p)) ps.
Proof.
  induction ps as [|p ps IH]; simpl; intros cs Hrun.
  - now inversion Hrun.
  - unfold and_then, do_call in Hrun.
    destruct (subscribe c (pt_topic p)) as [[]|]; [|discriminate].
    destruct (subscribe_all c ps) as [cs' r] eqn:Hrest.
    inversion Hrun; subst. simpl. f_equal. now apply IH.
Qed.

(** Some point matches the topic, or none does. *)
Lemma match_or_not (h : Host) (topic : string) :
  forall ps,
    Forall (fun p => topic_matches_sub h (pt_topic p) topic = false) ps
    \/ exists p, In p ps /\ topic_matches_sub h (pt_topic p) topic = true.
Proof.
  induction ps as [|p ps [IH|(q & Hq & Hm)]].
  - left. constructor.
  - destruct (topic_matches_sub h (pt_topic p) topic) eqn:Hp.
    + right. exists p. split; [now left | exact Hp].
    + left. now constructor.
  - right. exists q. split; [now right | exact Hm].
Qed.

(** X17: a connection that is accepted subscribes to the pattern of every
    point, one call for each in the order of the configuration, and these
    subscriptions cover the handler: a message for which the handler does
    anything at all (an effect, or an exception) has a topic that one of the
    subscribed patterns matches.  A refused connection subscribes to
    nothing. *)
Theorem subscriptions_cover_the_handler
  (c : Clients) (h : Host) (cfg : config) (rc : Z) (cs : list client_call) :
  snd (_on_mqtt_connect c cfg rc) = (cs, Ok tt) ->
  (rc <> CONNACK_ACCEPTED -> cs = [])
  /\ (rc = CONNACK_ACCEPTED ->
      cs = map (fun p => Subscribe (pt_topic p)) (points cfg)
      /\ forall m,
           _on_mqtt_message h cfg m <> ([], Returned) ->
           exists sub,
             In (Subscribe sub) cs
             /\ topic_matches_sub h sub (m_topic m) = true).
Proof.
  unfold _on_mqtt_connect. cbn [snd]. intros Hrun. split.
  - intros Hrc. apply Z.eqb_neq in Hrc. rewrite Hrc in Hrun.
    now inversion Hrun.
  - intros Hrc. apply Z.eqb_eq in Hrc. rewrite Hrc in Hrun.
    apply subscribe_all_returned in Hrun. split; [exact Hrun|].
    intros m Hacts.
    destruct (match_or_not h (m_topic m) (points cfg)) as [Hnone|(p & Hp & Hm)].
    + exfalso. apply Hacts. unfold _on_mqtt_message.
      now apply dispatch_no_match.
    + exists (pt_topic p). split; [|exact Hm].
      rewrite Hrun. now apply (in_map (fun q => Subscribe (pt_topic q))).
Qed.

(** The rules A and B on an accepted connection. *)
Lemma subscriptions_cover_the_handler_witness :
  (0 <> CONNACK_ACCEPTED -> [Subscribe "sensors/+/temp"; Subscribe "sensors/#"] = [])
  /\ (0 = CONNACK_ACCEPTED ->
      [Subscribe "sensors/+/temp"; Subscribe "sensors/#"]
      = map (fun p => Subscribe (pt_topic p)) (points (config_of [rule_A; rule_B]))
      /\ forall m,
           _on_mqtt_message utc_host (config_of [rule_A; rule_B]) m
           <> ([], Returned) ->
           exists sub,
             In (Subscribe sub) [Subscribe "sensors/+/temp"; Subscribe "sensors/#"]
             /\ topic_matches_sub utc_host sub (m_topic m) = true).
Proof.
  apply (subscriptions_cover_the_handler ref_clients utc_host
           (config_of [rule_A; rule_B]) 0
           [Subscribe "sensors/+/temp"; Subscribe "sensors/#"]).
  reflexivity.
Defined.

(** A refusal is logged with its reason, as an unknown code when the code is
    none of paho's five, and nothing is subscribed. *)
Example refused_connection :
  _on_mqtt_connect ref_clients (config_of [rule_A; rule_B]) 5
  = (Some "not authorised", ([], Ok tt))
  /\ _on_mqtt_connect ref_clients (config_of [rule_A; rule_B]) 7
     = (Some "unknown code", ([], Ok tt)).
Proof. split; reflexivity. Qed.
